(** * The COVID-19 incidence widget of kopischke/scriptable

    A shallow embedding of the widget script (normalisation of the lookup
    codes, sequential retrieval, the one-file cache, staleness and trend
    symbols, the rows of the widget) and of the [Localization] class it
    imports, followed by the properties of the data pipeline.

    Conventions of the embedding.
    - JavaScript values are the type [JS.value]; numbers are exact rationals
      extended with [NaN] and the two infinities (rounding of doubles and the
      sign of zero are not represented).
    - Strings are [string]s of code units; only code units below 256 are
      represented.
    - The script runs in a world made of the local files, a clock and a
      remote service; every [await] and every platform call that reads or
      changes the world is a step of the monad [M].
    - A file holds a JSON text; it is represented by the document (type
      [JS.json]) that the text denotes.
    - Fonts, image alignment and the like are left out of the widget tree,
      as are the assignments to [color] (texts are coloured through
      [textColor]); debug logging is left out (its arguments are total). *)

From Stdlib Require Import String Ascii List Sorted ZArith QArith Bool Lia DecimalString.
Import ListNotations.
Close Scope Q_scope.
Set Warnings "-register-all".
Local Open Scope list_scope.
Local Open Scope string_scope.

(* ================================================================== *)
(** * Part I: the JavaScript platform *)
(* ================================================================== *)

Module JS.

(** ** Numbers *)

Inductive number : Type :=
| NaN
| Infinity (negative : bool)
| Fin (q : Q).

Definition ofZ (z : Z) : number := Fin (inject_Z z).

(** [a <= b]; false as soon as one side is [NaN]. *)
Definition le (a b : number) : bool :=
  match a, b with
  | NaN, _ | _, NaN => false
  | Infinity true, _ => true
  | _, Infinity false => true
  | Infinity false, _ => false
  | _, Infinity true => false
  | Fin p, Fin q => Qle_bool p q
  end.

Definition ge (a b : number) : bool := le b a.
Definition lt (a b : number) : bool := le a b && negb (le b a).
Definition gt (a b : number) : bool := lt b a.

Definition neg (a : number) : number :=
  match a with
  | NaN => NaN
  | Infinity s => Infinity (negb s)
  | Fin q => Fin (Qopp q)
  end.

Definition sub (a b : number) : number :=
  match a, b with
  | NaN, _ | _, NaN => NaN
  | Infinity s, Infinity t => if Bool.eqb s t then NaN else Infinity s
  | Infinity s, Fin _ => Infinity s
  | Fin _, Infinity t => Infinity (negb t)
  | Fin p, Fin q => Fin (Qminus p q)
  end.

Definition numEq (a b : number) : bool :=
  match a, b with
  | Fin p, Fin q => Qeq_bool p q
  | Infinity s, Infinity t => Bool.eqb s t
  | _, _ => false
  end.

(** ** Characters and strings *)

Definition isWhiteSpace (c : ascii) : bool :=
  let n := nat_of_ascii c in
  ((9 <=? n) && (n <=? 13) || (n =? 32) || (n =? 160))%nat.

Definition isDigit (c : ascii) : bool :=
  let n := nat_of_ascii c in ((48 <=? n) && (n <=? 57))%nat.

Definition digitVal (c : ascii) : Z := Z.of_nat (nat_of_ascii c) - 48.

Fixpoint trimStart (s : string) : string :=
  match s with
  | String c t => if isWhiteSpace c then trimStart t else s
  | EmptyString => EmptyString
  end.

Fixpoint trimEnd (s : string) : string :=
  match s with
  | EmptyString => EmptyString
  | String c t =>
      match trimEnd t with
      | EmptyString => if isWhiteSpace c then EmptyString else String c EmptyString
      | t' => String c t'
      end
  end.

Definition trim (s : string) : string := trimEnd (trimStart s).

(** [s.includes(sub)] *)
Fixpoint includesStr (sub s : string) : bool :=
  prefix sub s ||
  match s with
  | EmptyString => false
  | String _ t => includesStr sub t
  end.

(** [s.split(sep)] for a one-character separator. *)
Fixpoint split (sep : ascii) (s : string) : list string :=
  match s with
  | EmptyString => [EmptyString]
  | String c t =>
      if Ascii.eqb c sep then EmptyString :: split sep t
      else match split sep t with
           | h :: r => String c h :: r
           | [] => [String c EmptyString]
           end
  end.

(** The longest prefix of characters satisfying [p], and the rest. *)
Fixpoint span (p : ascii -> bool) (s : string) : string * string :=
  match s with
  | String c t =>
      if p c then let (a, b) := span p t in (String c a, b) else (EmptyString, s)
  | EmptyString => (EmptyString, EmptyString)
  end.

(** The number denoted by a run of digits in base [base], most significant first. *)
Fixpoint digitsVal (base : Z) (acc : Z) (s : string) : Z :=
  match s with
  | EmptyString => acc
  | String c t => digitsVal base (acc * base + digitVal c) t
  end.

(** ** Values *)

Inductive value : Type :=
| Undefined
| Null
| Bool (b : bool)
| Num (n : number)
| Str (s : string)
| Arr (elems : list value)
| Obj (props : list (string * value)).

Definition truthy (v : value) : bool :=
  match v with
  | Undefined | Null => false
  | Bool b => b
  | Num NaN => false
  | Num (Infinity _) => true
  | Num (Fin q) => negb (Qeq_bool q 0)
  | Str s => negb (String.eqb s "")
  | Arr _ | Obj _ => true
  end.

(** [v == null] *)
Definition isNullish (v : value) : bool :=
  match v with
  | Undefined | Null => true
  | _ => false
  end.

(** [a || b] *)
Definition or (a b : value) : value := if truthy a then a else b.

(** [Number.prototype.toString] for an integral number below 10^21; the
    rendering of the other finite numbers (which always holds a [.] or an
    exponent) is not represented. *)
Definition numberToString (n : number) : option string :=
  match n with
  | NaN => Some "NaN"
  | Infinity false => Some "Infinity"
  | Infinity true => Some "-Infinity"
  | Fin q =>
      let r := Qred q in
      if Pos.eqb (Qden r) 1 && (Z.abs (Qnum r) <? 10 ^ 21)%Z
      then Some (NilZero.string_of_int (Z.to_int (Qnum r)))
      else None
  end.

(** [`${v}`]: the string form of a value, [None] where it holds a number
    whose rendering is not represented. *)
Fixpoint toString (v : value) : option string :=
  match v with
  | Undefined => Some "undefined"
  | Null => Some "null"
  | Bool true => Some "true"
  | Bool false => Some "false"
  | Num n => numberToString n
  | Str s => Some s
  | Arr l =>
      let elem x := if isNullish x then Some "" else toString x in
      (fix go (l : list value) : option string :=
         match l with
         | [] => Some ""
         | [x] => elem x
         | x :: r =>
             match elem x, go r with
             | Some a, Some b => Some (a ++ "," ++ b)
             | _, _ => None
             end
         end) l
  | Obj _ => Some "[object Object]"
  end.

(** [Number.parseFloat] on a string: leading white space is skipped, then the
    longest prefix that is a decimal literal (or a signed [Infinity]) is read. *)
Definition decimalValue (int frac : string) (exp : Z) : Q :=
  Qmult (inject_Z (digitsVal 10 0 (int ++ frac)))
        (Qpower (inject_Z 10) (exp - Z.of_nat (String.length frac))).

Definition readSign (s : string) : bool * string :=
  match s with
  | String "-" t => (true, t)
  | String "+" t => (false, t)
  | _ => (false, s)
  end.

(** The exponent part at the head of [s], when there is a complete one. *)
Definition readExponent (s : string) : option (Z * string) :=
  match s with
  | String c t =>
      if Ascii.eqb c "e" || Ascii.eqb c "E" then
        let (sgn, t') := readSign t in
        let (ds, rest) := span isDigit t' in
        match ds with
        | EmptyString => None
        | _ => Some ((if sgn then - digitsVal 10 0 ds else digitsVal 10 0 ds)%Z, rest)
        end
      else None
  | EmptyString => None
  end.

(** An unsigned decimal literal at the head of [s]: its value and the rest. *)
Definition readDecimal (s : string) : option (Q * string) :=
  let (int, r1) := span isDigit s in
  let '(frac, r2, dot) :=
    match r1 with
    | String "." t => let (f, r) := span isDigit t in (f, r, true)
    | _ => (EmptyString, r1, false)
    end in
  match int, frac with
  | EmptyString, EmptyString => None
  | _, _ =>
      match readExponent r2 with
      | Some (e, r3) => Some (decimalValue int frac e, r3)
      | None => Some (decimalValue int frac 0, r2)
      end
  end.

Definition parseFloatString (s : string) : number :=
  let (sgn, t) := readSign (trimStart s) in
  if prefix "Infinity" t then Infinity sgn
  else match readDecimal t with
       | Some (q, _) => Fin (if sgn then Qopp q else q)
       | None => NaN
       end.

(** [Number.parseFloat(v)]: the argument is first turned into a string. For
    a number that string reads back as the number itself; the string of an
    array starts with the string of its first element, followed by a comma
    or by nothing. *)
Fixpoint parseFloat (v : value) : number :=
  match v with
  | Num n => n
  | Str s => parseFloatString s
  | Arr (x :: _) => parseFloat x
  | _ => NaN
  end.

(** [Number(s)] for a string: the whole trimmed string has to be a numeric
    literal; the empty string is zero. *)
Definition isHexDigit (c : ascii) : bool :=
  let n := nat_of_ascii c in
  (isDigit c || (65 <=? n) && (n <=? 70) || (97 <=? n) && (n <=? 102))%nat.

Definition hexVal (c : ascii) : Z :=
  let n := Z.of_nat (nat_of_ascii c) in
  (if n <? 58 then n - 48 else if n <? 71 then n - 55 else n - 87)%Z.

Fixpoint radixVal (base : Z) (acc : Z) (s : string) : Z :=
  match s with
  | EmptyString => acc
  | String c t => radixVal base (acc * base + hexVal c) t
  end.

Definition allChars (p : ascii -> bool) (s : string) : bool :=
  match span p s with
  | (String _ _, EmptyString) => true
  | _ => false
  end.

Definition radixLiteral (s : string) : option number :=
  match s with
  | String "0" (String c t) =>
      let lit (p : ascii -> bool) (base : Z) :=
        Some (if allChars p t then ofZ (radixVal base 0 t) else NaN) in
      if Ascii.eqb c "x" || Ascii.eqb c "X" then lit isHexDigit 16%Z
      else if Ascii.eqb c "o" || Ascii.eqb c "O" then
        lit (fun d => isDigit d && (nat_of_ascii d <=? 55)%nat) 8%Z
      else if Ascii.eqb c "b" || Ascii.eqb c "B" then
        lit (fun d => (nat_of_ascii d =? 48)%nat || (nat_of_ascii d =? 49)%nat) 2%Z
      else None
  | _ => None
  end.

Definition stringToNumber (s : string) : number :=
  let t := trim s in
  match t with
  | EmptyString => Fin 0
  | _ =>
      match radixLiteral t with
      | Some n => n
      | None =>
          let (sgn, u) := readSign t in
          if String.eqb u "Infinity" then Infinity sgn
          else match readDecimal u with
               | Some (q, EmptyString) => Fin (if sgn then Qopp q else q)
               | _ => NaN
               end
      end
  end.

(** [Number(v)], the conversion applied by [-], [>=] and [>] to an operand.
    An array converts through its string: empty gives zero, one element
    gives what that element's string gives, several give [NaN]. *)
Fixpoint toNumber (v : value) : number :=
  match v with
  | Undefined => NaN
  | Null => Fin 0
  | Bool true => Fin 1
  | Bool false => Fin 0
  | Num n => n
  | Str s => stringToNumber s
  | Arr [] => Fin 0
  | Arr [x] =>
      match x with
      | Undefined | Null => Fin 0
      | Bool _ | Obj _ => NaN
      | _ => toNumber x
      end
  | Arr _ => NaN
  | Obj _ => NaN
  end.

(** [v == q] for a number [q]. *)
Definition looseEqNumber (v : value) (q : number) : bool :=
  negb (isNullish v) && numEq (toNumber v) q.

(** SameValueZero, the comparison of [Array.prototype.includes]: by content
    for primitive values; two objects are the same only when they are one
    object, which the values compared by the script (taken from different
    records of a parsed document) never are. *)
Definition sameValueZero (a b : value) : bool :=
  match a, b with
  | Undefined, Undefined | Null, Null => true
  | Bool x, Bool y => Bool.eqb x y
  | Num NaN, Num NaN => true
  | Num x, Num y => numEq x y
  | Str x, Str y => String.eqb x y
  | _, _ => false
  end.

Definition includes (l : list value) (v : value) : bool :=
  existsb (fun x => sameValueZero x v) l.

(** ** Exceptions *)

Inductive result (A : Type) : Type :=
| Ok (a : A)
| Throw (error : string).
Arguments Ok {A} a.
Arguments Throw {A} error.

Definition bindR {A B : Type} (r : result A) (k : A -> result B) : result B :=
  match r with
  | Ok a => k a
  | Throw e => Throw e
  end.

Fixpoint lookup {A : Type} (k : string) (l : list (string * A)) : option A :=
  match l with
  | [] => None
  | (k', a) :: r => if String.eqb k k' then Some a else lookup k r
  end.

(** [v.k] for the data properties read by the script (none of them is a
    member of a built-in prototype): a [TypeError] on [null] and
    [undefined], the own property of an object, [undefined] otherwise. *)
Definition get (v : value) (k : string) : result value :=
  match v with
  | Undefined | Null => Throw "TypeError"
  | Obj props =>
      match lookup k props with
      | Some x => Ok x
      | None => Ok Undefined
      end
  | _ => Ok Undefined
  end.

(** [v.length] *)
Definition lengthOf (v : value) : result value :=
  match v with
  | Arr l => Ok (Num (ofZ (Z.of_nat (List.length l))))
  | Str s => Ok (Num (ofZ (Z.of_nat (String.length s))))
  | _ => get v "length"
  end.

(** ** JSON documents *)

Inductive json : Type :=
| Jnull
| Jbool (b : bool)
| Jnumber (q : Q)
| Jstring (s : string)
| Jarray (elems : list json)
| Jobject (members : list (string * json)).

(** [JSON.stringify]: [None] stands for the result [undefined]. A number
    that is not finite is written [null]; an [undefined] element of an array
    is written [null]; an [undefined] property is left out. *)
Fixpoint stringify (v : value) : option json :=
  match v with
  | Undefined => None
  | Null => Some Jnull
  | Bool b => Some (Jbool b)
  | Num (Fin q) => Some (Jnumber q)
  | Num _ => Some Jnull
  | Str s => Some (Jstring s)
  | Arr l =>
      Some (Jarray
        ((fix elems (l : list value) : list json :=
            match l with
            | [] => []
            | x :: r =>
                match stringify x with
                | Some d => d :: elems r
                | None => Jnull :: elems r
                end
            end) l))
  | Obj l =>
      Some (Jobject
        ((fix members (l : list (string * value)) : list (string * json) :=
            match l with
            | [] => []
            | (k, x) :: r =>
                match stringify x with
                | Some d => (k, d) :: members r
                | None => members r
                end
            end) l))
  end.

(** The members written for the properties of an object. *)
Fixpoint stringifyMembers (l : list (string * value)) : list (string * json) :=
  match l with
  | [] => []
  | (k, x) :: r =>
      match stringify x with
      | Some d => (k, d) :: stringifyMembers r
      | None => stringifyMembers r
      end
  end.

(** The elements written for the elements of an array. *)
Definition stringifyElement (x : value) : json :=
  match stringify x with
  | Some d => d
  | None => Jnull
  end.

(** [JSON.parse] of the text of a document (member names are distinct). *)
Fixpoint parse (d : json) : value :=
  match d with
  | Jnull => Null
  | Jbool b => Bool b
  | Jnumber q => Num (Fin q)
  | Jstring s => Str s
  | Jarray l => Arr (map parse l)
  | Jobject l =>
      Obj ((fix members (l : list (string * json)) : list (string * value) :=
              match l with
              | [] => []
              | (k, x) :: r => (k, parse x) :: members r
              end) l)
  end.

Fixpoint parseMembers (l : list (string * json)) : list (string * value) :=
  match l with
  | [] => []
  | (k, x) :: r => (k, parse x) :: parseMembers r
  end.

End JS.

Import JS.

(* ================================================================== *)
(** * Part II: the host application *)
(* ================================================================== *)

Module Scriptable.

(** What a run can observe and change. [clock] lists the successive readings
    of the system clock and [ticks] counts the readings taken; [remote k url]
    is the body the service delivers to the [k]-th request of the run when it
    asks for [url], [None] when [Request.loadJSON] rejects instead (no
    connection, a body that is not JSON); [requests] and [written] record what
    the run has asked for and written. *)
Record World : Type := {
  files : string -> option json;
  libraryDirectory : string;
  clock : nat -> Z;
  ticks : nat;
  remote : nat -> string -> option json;
  requests : list string;
  written : list (string * json)
}.

Definition M (A : Type) : Type := World -> result A * World.

Definition ret {A : Type} (a : A) : M A := fun w => (Ok a, w).

Definition bind {A B : Type} (m : M A) (k : A -> M B) : M B :=
  fun w =>
    match m w with
    | (Ok a, w') => k a w'
    | (Throw e, w') => (Throw e, w')
    end.

Definition lift {A : Type} (r : result A) : M A := fun w => (r, w).

(** [try { m } catch (error) { handler }] *)
Definition tryCatch {A : Type} (m : M A) (handler : string -> M A) : M A :=
  fun w =>
    match m w with
    | (Ok a, w') => (Ok a, w')
    | (Throw e, w') => handler e w'
    end.

(** [Date.now()] *)
Definition Date_now : M Z :=
  fun w =>
    (Ok (clock w (ticks w)),
     {| files := files w; libraryDirectory := libraryDirectory w;
        clock := clock w; ticks := S (ticks w);
        remote := remote w; requests := requests w; written := written w |}).

(** [await request.loadJSON()] for a request to [url] *)
Definition loadJSON (url : string) : M value :=
  fun w =>
    let w' :=
      {| files := files w; libraryDirectory := libraryDirectory w;
         clock := clock w; ticks := ticks w;
         remote := remote w; requests := (requests w ++ [url])%list;
         written := written w |} in
    match remote w (List.length (requests w)) url with
    | Some body => (Ok (parse body), w')
    | None => (Throw "Error", w')
    end.

(** [fm.libraryDirectory()], [fm.fileExists(path)], [fm.readString(path)] *)
Definition fm_libraryDirectory : M string := fun w => (Ok (libraryDirectory w), w).

Definition fm_fileExists (path : string) : M bool :=
  fun w => (Ok (match files w path with Some _ => true | None => false end), w).

Definition fm_readString (path : string) : M (option json) :=
  fun w => (Ok (files w path), w).

(** [fm.writeString(path, text)] for the text of the document [doc] *)
Definition fm_writeString (path : string) (doc : json) : M unit :=
  fun w =>
    (Ok tt,
     {| files := fun p => if String.eqb p path then Some doc else files w p;
        libraryDirectory := libraryDirectory w;
        clock := clock w; ticks := ticks w;
        remote := remote w; requests := requests w;
        written := (written w ++ [(path, doc)])%list |}).

(** [JSON.parse(text)]; an absent text reads as the text [null]. *)
Definition JSON_parse (text : option json) : value :=
  match text with
  | Some doc => parse doc
  | None => Null
  end.

(** What the device settings contribute: the language tag and the
    formatting of dates, times and numbers for display. *)
Record Device : Type := {
  language : string;
  dateString : bool -> value -> string;
  timeString : value -> string;
  toLocaleString : value -> string
}.

(** How the script was started: [config.runsInWidget],
    [config.widgetFamily] and [args.widgetParameter]. *)
Record Config : Type := {
  runsInWidget : bool;
  widgetFamily : string;
  widgetParameter : option string
}.

End Scriptable.

Import Scriptable.

Declare Scope js_scope.
Delimit Scope js_scope with js.
Notation "x <- m ;; k" := (bind m (fun x => k))
  (at level 100, m at next level, right associativity) : js_scope.
Notation "m ;;; k" := (bind m (fun _ => k))
  (at level 100, right associativity) : js_scope.

(* ================================================================== *)
(** * Part III: net.kopischke.i18n.js *)
(* ================================================================== *)

Module I18n.

Definition LocalizedStrings : Type := list (string * string).

Fixpoint setProperty (k v : string) (o : LocalizedStrings) : LocalizedStrings :=
  match o with
  | [] => [(k, v)]
  | (k', v') :: r =>
      if String.eqb k k' then (k, v) :: r else (k', v') :: setProperty k v r
  end.

(** [Object.assign(target, source)] *)
Definition assign (target source : LocalizedStrings) : LocalizedStrings :=
  fold_left (fun o kv => setProperty (fst kv) (snd kv) o) source target.

Record Localization : Type := {
  language : string;
  strings : LocalizedStrings
}.

(** [new Localization(strings)] on a device whose language is [deviceLanguage] *)
Definition constructor (deviceLanguage : string)
    (strings : list (string * LocalizedStrings)) : Localization :=
  let lang := deviceLanguage in
  let base := hd "" (split "-" lang) in
  let langFallback := "en-US" in
  let baseFallback := "en" in
  let s0 := match lookup baseFallback strings with Some o => o | None => [] end in
  let s1 := match lookup langFallback strings with
            | Some o => assign s0 o
            | None => s0
            end in
  let s2 := if negb (String.eqb base baseFallback)
            then match lookup base strings with
                 | Some o => assign s1 o
                 | None => s1
                 end
            else s1 in
  let s3 := if negb (String.eqb lang langFallback) && negb (String.eqb lang base)
            then match lookup lang strings with
                 | Some o => assign s2 o
                 | None => s2
                 end
            else s2 in
  {| language := lang; strings := s3 |}.

Fixpoint drop (n : nat) (s : string) : string :=
  match n, s with
  | S k, String _ t => drop k t
  | _, _ => s
  end.

Definition notBrace (c : ascii) : bool := negb (Ascii.eqb c "}").
Definition notColonOrBrace (c : ascii) : bool :=
  negb (Ascii.eqb c ":") && negb (Ascii.eqb c "}").

(** A match of [%\{cur(:[^}]+)?\}] at the head of [s]: its length. *)
Definition matchPlaceholder (cur : string) (s : string) : option nat :=
  let pre := "%{" ++ cur in
  if prefix pre s then
    match drop (String.length pre) s with
    | String "}" _ => Some (String.length pre + 1)%nat
    | String ":" t =>
        match span notBrace t with
        | (String _ _ as body, String "}" _) =>
            Some (String.length pre + 1 + String.length body + 1)%nat
        | _ => None
        end
    | _ => None
    end
  else None.

(** A match of [%\{[^:}]+:([^}]+)\}] at the head of [s]: its length and
    its group. *)
Definition matchDefault (s : string) : option (nat * string) :=
  match s with
  | String "%" (String "{" t) =>
      match span notColonOrBrace t with
      | (String _ _ as name, String ":" u) =>
          match span notBrace u with
          | (String _ _ as body, String "}" _) =>
              Some (2 + String.length name + 1 + String.length body + 1, body)%nat
          | _ => None
          end
      | _ => None
      end
  | _ => None
  end.

(** [s.replace(regex, ...)] for a global regex given by its matcher at the
    head of a string; [skip] characters of a match are still to be passed. *)
Fixpoint replaceAll (matcher : string -> option (nat * string)) (skip : nat)
    (s : string) : string :=
  match s with
  | EmptyString => EmptyString
  | String c t =>
      match skip with
      | S k => replaceAll matcher k t
      | O =>
          match matcher s with
          | Some (S n, replacement) => replacement ++ replaceAll matcher n t
          | _ => String c (replaceAll matcher 0 t)
          end
      end
  end.

(** [l8n.string(key, replacements)]. A replacement is given by its string
    form, [None] for [null] and [undefined]; it is inserted as it is (the
    [$] patterns of [String.prototype.replace] are not represented).
    [replacements] itself is [None] when the argument is left out. *)
Definition string (l8n : Localization) (key : string)
    (replacements : option (list (string * option string))) : string :=
  let str := match lookup key (strings l8n) with
             | Some t => if String.eqb t "" then key else t
             | None => key
             end in
  if includesStr "%{" str then
    let str1 :=
      match replacements with
      | Some reps =>
          fold_left
            (fun acc kv =>
               match snd kv with
               | Some text =>
                   replaceAll
                     (fun s => option_map (fun n => (n, text)) (matchPlaceholder (fst kv) s))
                     0 acc
               | None => acc
               end)
            reps str
      | None => str
      end in
    replaceAll matchDefault 0 str1
  else str.

End I18n.

(* ================================================================== *)
(** * Part IV: the widget script *)
(* ================================================================== *)

Definition strings : list (string * I18n.LocalizedStrings) :=
  [ ("en",
     [ ("headlineShort", "Incidence");
       ("headlineLong", "COVID-19 Incidence");
       ("updated", "%{date:date unknown}, %{time:time unknown}");
       ("msgUnknownShort", "?");
       ("msgUnknownLong", "unknown");
       ("msgCode", "Code %{code:?}");
       ("msgCodeError", "No valid German postal codes found in parameters.");
       ("msgNoData", "Unable to retrieve incidence data.") ]);
    ("de",
     [ ("headlineShort", "Inzidenz");
       ("headlineLong", "COVID-19-Inzidenz");
       ("updated", "%{date:Datum unbekannt}, %{time:Zeit unbekannt}");
       ("msgUnknownShort", "?");
       ("msgUnknownLong", "unbekannt");
       ("msgCode", "PLZ %{code}");
       ("msgCodeError", "Keine Postleitzahlen in der Eingabe gefunden.");
       ("msgRequestError",
        "Inzidenzdaten k" ++ String "246" "nnen nicht abgerufen werden.") ]) ].

Record Prefs : Type := {
  debugLogging : bool;
  preferDistricts : bool;
  refreshInterval : Z;
  widgetURL : string
}.

Definition prefs : Prefs :=
  {| debugLogging := false;
     preferDistricts := false;
     refreshInterval := 60;
     widgetURL := "https://npgeo-corona-npgeo-de.hub.arcgis.com/app/478220a4c454480e823b17327b2bf1d4" |}.

Definition testData : list value :=
  [ Str " 50937"; Str "51063"; Null; Arr [Num (ofZ 1)]; Str "foo";
    Num (ofZ 51429); Str "99999" ].

(** ** getLookupCodes *)

(** The array returned by a successful [String.prototype.match]: the object
    itself (arrays are compared by identity; [ref] numbers the calls of
    [toCodes]) and its only element, the matched text. *)
Record Match : Type := {
  ref : nat;
  matched : string
}.

(** [/^\d{5}$/] *)
Definition fiveDigits (s : string) : bool :=
  match s with
  | String a (String b (String c (String d (String e EmptyString)))) =>
      isDigit a && isDigit b && isDigit c && isDigit d && isDigit e
  | _ => false
  end.

(** [val => `${val}`.trim().match(/^\d{5}$/)]; [None] is [null]. A value whose
    string form holds a number that is not integral does not match. *)
Definition toCodes (idx : nat) (val : value) : option Match :=
  match toString val with
  | Some s =>
      let t := trim s in
      if fiveDigits t then Some {| ref := idx; matched := t |} else None
  | None => None
  end.

Fixpoint mapi {A B : Type} (f : nat -> A -> B) (idx : nat) (l : list A) : list B :=
  match l with
  | [] => []
  | x :: r => f idx x :: mapi f (S idx) r
  end.

(** [.filter(val => val != null)] *)
Fixpoint filterNotEmpty (l : list (option Match)) : list Match :=
  match l with
  | [] => []
  | Some m :: r => m :: filterNotEmpty r
  | None :: r => filterNotEmpty r
  end.

(** [ary.includes(val)] on arrays of match results: the same object. *)
Definition includesMatch (ary : list Match) (val : Match) : bool :=
  existsb (fun m => Nat.eqb (ref m) (ref val)) ary.

(** [(val, idx, ary) => idx === 0 || !ary.slice(0, idx - 1).includes(val)] *)
Definition unique (val : Match) (idx : nat) (ary : list Match) : bool :=
  Nat.eqb idx 0 || negb (includesMatch (firstn (idx - 1) ary) val).

Fixpoint filteri {A : Type} (f : A -> nat -> list A -> bool) (ary : list A)
    (idx : nat) (l : list A) : list A :=
  match l with
  | [] => []
  | x :: r =>
      if f x idx ary then x :: filteri f ary (S idx) r else filteri f ary (S idx) r
  end.

(** [codes.map(toCodes).filter(notEmpty).filter(unique)] *)
Definition normalise (codes : list value) : list Match :=
  let found := filterNotEmpty (mapi toCodes 0 codes) in
  filteri unique found 0 found.

Definition getLookupCodes (config : Config) : list Match :=
  let codes :=
    if runsInWidget config then
      match widgetParameter config with
      | Some params => map Str (split "," params)
      | None => []
      end
    else testData in
  normalise codes.

(** ** getData *)

Definition lookupURL (code : Match) : string :=
  "https://covid.9digits.de/lockdown/" ++ matched code.

(** The object [data] built from the key and the parsed response. *)
Definition incidenceInfo (code : Match) (resp : value) : result value :=
  bindR (get resp "cityName") (fun cityName =>
  bindR (get resp "districtName") (fun districtName =>
  bindR (get resp "lockdownIndex") (fun lockdownIndex =>
  bindR (get resp "lockdownIndexPrevious2") (fun lockdownIndexPrevious2 =>
  bindR (get resp "dataSource") (fun dataSource =>
  Ok (Obj [ ("code", Arr [Str (matched code)]);
            ("place", cityName);
            ("district", districtName);
            ("incidence", Num (parseFloat lockdownIndex));
            ("previousIncidence", Num (parseFloat lockdownIndexPrevious2));
            ("credit", dataSource);
            ("url", Str (lookupURL code)) ])))))).

(** The body of the [try] block: one request and the record made of its answer. *)
Definition fetchOne (code : Match) : M value :=
  (resp <- loadJSON (lookupURL code) ;;
   lift (incidenceInfo code resp))%js.

(** The [for] loop; the [catch] block returns the empty array at once. *)
Fixpoint getDataLoop (codes : list Match) (responses : list value) : M (list value) :=
  match codes with
  | [] => ret responses
  | code :: rest =>
      (outcome <- tryCatch (data <- fetchOne code ;; ret (Some data))
                           (fun _ => ret None) ;;
       match outcome with
       | Some data => getDataLoop rest (responses ++ [data])%list
       | None => ret []
       end)%js
  end.

Definition getData (codes : list Match) : M (list value) := getDataLoop codes [].

(** ** The symbols and colours *)

Inductive Colour : Type := red | yellow | orange | lightGray.

Definition getIncidenceColour (forIndex : value) : option Colour :=
  if ge (toNumber forIndex) (ofZ 50) then Some red
  else if ge (toNumber forIndex) (ofZ 35) then Some yellow
  else None.

Definition getTrendSymbol (value comparedTo : value) : string :=
  let diff := sub (toNumber value) (toNumber comparedTo) in
  if ge diff (toNumber comparedTo) then "arrow.up.circle"
  else if ge diff (ofZ 1) then "arrow.up.right.circle"
  else if le diff (ofZ (-1)) then "arrow.down.right.circle"
  else if le diff (neg (toNumber comparedTo)) then "arrow.down.circle"
  else "equal.circle".

(** [previous == null ? SFSymbol.named('questionmark.circle')
                      : getTrendSymbol(current, previous)] *)
Definition trendSymbol (current previous : value) : string :=
  if isNullish previous then "questionmark.circle"
  else getTrendSymbol current previous.

Definition getUpdateInfo (device : Device) (l8n : I18n.Localization)
    (timestamp : value) (shortForm : bool) : string :=
  let values := [ ("date", Some (dateString device shortForm timestamp));
                  ("time", Some (timeString device timestamp)) ] in
  I18n.string l8n "updated" (Some values).

(** ** The widget *)

Inductive Content : Type :=
| Plain (text : string)
| Shown (v : value)
| Joined (elems : list value) (separator : string).

Inductive Item : Type :=
| Text (content : Content) (textColor : option Colour) (link : option value)
| Image (symbol : string) (tintColor : option Colour)
| Spacer (length : option Z)
| Stack (items : list Item).

(** [refreshAfterDate] holds the clock reading of [new Date()] and the
    number of minutes added to it. *)
Record ListWidget : Type := {
  spacing : Z;
  url : string;
  items : list Item;
  refreshAfterDate : option (Z * Z)
}.

Definition add (widget : ListWidget) (item : Item) : ListWidget :=
  {| spacing := spacing widget; url := url widget;
     items := (items widget ++ [item])%list;
     refreshAfterDate := refreshAfterDate widget |}.

Definition cachePath (directory : string) : string :=
  directory ++ "/net.kopischke.covid-19.data".

Definition hours : Z := 60 * 60 * 1000.

(** The warning image of the update line, for data of the given age. *)
Definition updateWarning (age : number) : option Item :=
  if gt age (ofZ (24 * hours)) then
    Some (if gt age (ofZ (72 * hours))
          then Image "xmark.circle.fill" (Some orange)
          else Image "exclamationmark.circle.fill" (Some yellow))
  else None.

(** What the [forEach] callback accumulates. *)
Record Rows : Type := {
  stacks : list Item;
  credits : list value;
  locations : list value
}.

(** The display name of a record: [name || l8n.string('msgCode', ...)] *)
Definition locationOf (pf : Prefs) (l8n : I18n.Localization) (codes : list Match)
    (data : value) (idx : nat) : result value :=
  match (if preferDistricts pf then get data "district"
         else match get data "place" with
              | Ok place => if truthy place then Ok place else get data "district"
              | Throw e => Throw e
              end) with
  | Ok name =>
      Ok (or name
            (Str (I18n.string l8n "msgCode"
                    (Some [("code", option_map matched (nth_error codes idx))]))))
  | Throw e => Throw e
  end.

(** The callback of [locData.data.forEach]. *)
Definition addRow (device : Device) (pf : Prefs) (l8n : I18n.Localization)
    (codes : list Match) (maxLines : nat) (smallWidget : bool)
    (rows : Rows) (data : value) (idx : nat) : result Rows :=
  if (List.length (locations rows) <? maxLines)%nat then
    bindR (locationOf pf l8n codes data idx) (fun location =>
    if negb (includes (locations rows) location) then
      bindR (get data "url") (fun dataUrl =>
      let link := if truthy dataUrl then Some dataUrl else None in
      let label := Text (Shown location) None link in
      bindR (get data "incidence") (fun current =>
      if negb (isNullish current) then
        let incidenceColour := getIncidenceColour current in
        let incidence := Text (Plain (toLocaleString device current)) incidenceColour link in
        bindR (if smallWidget then Ok []
               else bindR (get data "previousIncidence") (fun previous =>
                    let symbol := trendSymbol current previous in
                    Ok [Spacer (Some 8%Z); Image symbol incidenceColour]))
              (fun trend =>
        bindR (get data "credit") (fun credit =>
        Ok {| stacks := (stacks rows
                           ++ [Stack ([label; Spacer None; incidence] ++ trend)])%list;
              credits := if truthy credit && negb (includes (credits rows) credit)
                         then (credits rows ++ [credit])%list
                         else credits rows;
              locations := (locations rows ++ [location])%list |}))
      else
        bindR (get data "errorMessage") (fun _ =>
        let unknown :=
          Text (Plain (I18n.string l8n
                         (if smallWidget then "msgUnknownShort" else "msgUnknownLong")
                         None))
               (Some orange) None in
        Ok {| stacks := (stacks rows ++ [Stack [label; Spacer None; unknown]])%list;
              credits := credits rows;
              locations := (locations rows ++ [location])%list |})))
    else
      Ok {| stacks := (stacks rows ++ [Stack []])%list;
            credits := credits rows;
            locations := locations rows |})
  else Ok rows.

Fixpoint forEach (callback : Rows -> value -> nat -> result Rows)
    (l : list value) (idx : nat) (rows : Rows) : result Rows :=
  match l with
  | [] => Ok rows
  | data :: r => bindR (callback rows data idx) (forEach callback r (S idx))
  end.

(** The part of [makeWidget] that follows the reading of the cache. *)
Definition present (device : Device) (pf : Prefs) (l8n : I18n.Localization)
    (codes : list Match) (size : string) (widget : ListWidget)
    (locData : value) : M ListWidget :=
  let maxLines := if String.eqb size "large" then 11%nat else 3%nat in
  let smallWidget := String.eqb size "small" in
  (stamp <- lift (get locData "updated") ;;
   let updateInfo := Text (Plain (getUpdateInfo device l8n stamp smallWidget)) None None in
   now <- Date_now ;;
   stamp' <- lift (get locData "updated") ;;
   let age := sub (ofZ now) (toNumber stamp') in
   let updateStack :=
     Stack ([updateInfo; Spacer None]
            ++ match updateWarning age with Some image => [image] | None => [] end) in
   let widget := add (add widget updateStack) (Spacer (Some (spacing widget))) in
   data <- lift (get locData "data") ;;
   size0 <- lift (if isNullish data then Ok true
                  else bindR (lengthOf data) (fun n => Ok (looseEqNumber n (ofZ 0)))) ;;
   if size0 : bool then
     ret (add widget (Text (Plain (I18n.string l8n "msgNoData" None)) (Some orange) None))
   else
     rows <- lift (match data with
                   | Arr l =>
                       forEach (addRow device pf l8n codes maxLines smallWidget) l 0
                         {| stacks := []; credits := []; locations := [] |}
                   | _ => Throw "TypeError"
                   end) ;;
     let widget :=
       {| spacing := spacing widget; url := url widget;
          items := (items widget ++ stacks rows ++ [Spacer None])%list;
          refreshAfterDate := refreshAfterDate widget |} in
     let widget :=
       if String.eqb size "large" && negb (Nat.eqb (List.length (credits rows)) 0)
       then add (add widget (Spacer (Some (spacing widget))))
                (Text (Joined (credits rows) ", ") None None)
       else widget in
     refresh <- Date_now ;;
     ret {| spacing := spacing widget; url := url widget; items := items widget;
            refreshAfterDate := Some (refresh, refreshInterval pf) |})%js.

(** [fm.writeString(cache, JSON.stringify(respData))] *)
Definition writeSnapshot (cache : string) (respData : value) : M unit :=
  match stringify respData with
  | Some text => fm_writeString cache text
  | None => lift (Throw "TypeError")
  end.

(** The cache file after the lookup: written when there are responses. *)
Definition updateCache (cache : string) (responses : list value) : M unit :=
  if negb (Nat.eqb (List.length responses) 0) then
    (now <- Date_now ;;
     writeSnapshot cache (Obj [("updated", Num (ofZ now)); ("data", Arr responses)]))%js
  else ret tt.

(** The data to show: the cache file when there is one. *)
Definition readCache (cache : string) : M value :=
  (found <- fm_fileExists cache ;;
   if found : bool then
     text <- fm_readString cache ;;
     ret (JSON_parse text)
   else
     now <- Date_now ;;
     ret (Obj [("updated", Num (ofZ now)); ("data", Null)]))%js.

Definition makeWidget (device : Device) (config : Config) (pf : Prefs)
    (size : string) : M ListWidget :=
  let l8n := I18n.constructor (Scriptable.language device) strings in
  let smallWidget := String.eqb size "small" in
  let widget := {| spacing := 2; url := widgetURL pf; items := [];
                   refreshAfterDate := None |} in
  let titleStr := if smallWidget then I18n.string l8n "headlineShort" None
                  else I18n.string l8n "headlineLong" None in
  let widget := add widget (Text (Plain titleStr) None None) in
  let codes := getLookupCodes config in
  if Nat.eqb (List.length codes) 0 then
    ret (add widget (Text (Plain (I18n.string l8n "msgCodeError" None)) (Some orange) None))
  else
    (responses <- getData codes ;;
     directory <- fm_libraryDirectory ;;
     let cache := cachePath directory in
     updateCache cache responses ;;;
     locData <- readCache cache ;;
     present device pf l8n codes size widget locData)%js.

(** The script's top level: the widget of the configured family when run as
    a widget, a large one when run in the application. *)
Definition main (device : Device) (config : Config) : M ListWidget :=
  if runsInWidget config then makeWidget device config prefs (widgetFamily config)
  else makeWidget device config prefs "large".

(* ================================================================== *)
(** * Part V: vocabulary of the properties *)
(* ================================================================== *)

(** The outcome of the [k]-th request of a run when it asks for the key
    [code]: the record of [getData], or the exception raised inside its
    [try] block. *)
Definition answer (w : World) (k : nat) (code : Match) : result value :=
  match remote w k (lookupURL code) with
  | Some body => incidenceInfo code (parse body)
  | None => Throw "Error"
  end.

(** The world after requests for [urls]. *)
Definition asked (w : World) (urls : list string) : World :=
  {| files := files w; libraryDirectory := libraryDirectory w;
     clock := clock w; ticks := ticks w;
     remote := remote w; requests := (requests w ++ urls)%list;
     written := written w |}.

(** The world after [n] more readings of the clock. *)
Definition ticked (w : World) (n : nat) : World :=
  {| files := files w; libraryDirectory := libraryDirectory w;
     clock := clock w; ticks := (ticks w + n)%nat;
     remote := remote w; requests := requests w;
     written := written w |}.

(** The world after the document [doc] has been written to [path]. *)
Definition stored (w : World) (path : string) (doc : json) : World :=
  {| files := fun p => if String.eqb p path then Some doc else files w p;
     libraryDirectory := libraryDirectory w;
     clock := clock w; ticks := ticks w;
     remote := remote w; requests := requests w;
     written := (written w ++ [(path, doc)])%list |}.

(** A computation that does nothing to the world but read the clock. *)
Definition readsClockOnly {A : Type} (m : M A) : Prop :=
  forall w, exists n, snd (m w) = ticked w n.

(** The match results come out of [map] in the order of their creation. *)
Definition refBelow (a b : Match) : Prop := (ref a < ref b)%nat.

(** The values that a JSON text can denote: no [undefined], no number that
    is not finite. *)
Fixpoint representable (v : value) : bool :=
  match v with
  | Undefined => false
  | Null | Bool _ | Str _ => true
  | Num (Fin _) => true
  | Num _ => false
  | Arr l => forallb representable l
  | Obj l =>
      (fix members (l : list (string * value)) : bool :=
         match l with
         | [] => true
         | (_, x) :: r => representable x && members r
         end) l
  end.

(** ** Well-formed snapshots

    The shape of the object written by [makeWidget],
    [{ updated: Date.now(), data: responses }], and of the one it uses when
    there is no file, [{ updated: Date.now(), data: null }]; the records are
    those of the type [IncidenceInfo] declared in the script, an absent
    value being [null]. The code of a record is a string, or the array of
    one string that [match] returns. *)

Definition nullableString (v : value) : bool :=
  match v with
  | Null | Str _ => true
  | _ => false
  end.

Definition nullableNumber (v : value) : bool :=
  match v with
  | Null | Num (Fin _) => true
  | _ => false
  end.

Definition codeValue (v : value) : bool :=
  match v with
  | Str _ | Arr [Str _] => true
  | _ => false
  end.

Definition wellFormedField (field : string * value) : bool :=
  let (k, v) := field in
  if String.eqb k "code" then codeValue v
  else if String.eqb k "place" || String.eqb k "district" || String.eqb k "credit"
          || String.eqb k "url" || String.eqb k "errorMessage"
  then nullableString v
  else if String.eqb k "incidence" || String.eqb k "previousIncidence"
  then nullableNumber v
  else false.

Definition wellFormedRecord (v : value) : bool :=
  match v with
  | Obj fields => forallb wellFormedField fields
  | _ => false
  end.

Definition wellFormedSnapshot (s : value) : bool :=
  match s with
  | Obj [(k1, Num (Fin t)); (k2, data)] =>
      String.eqb k1 "updated" && String.eqb k2 "data" && Pos.eqb (Qden t) 1
      && match data with
         | Null => true
         | Arr records => forallb wellFormedRecord records
         | _ => false
         end
  | _ => false
  end.

(** ** Sample runs *)

Definition widgetConfig (parameter : string) : Config :=
  {| runsInWidget := true; widgetFamily := "medium";
     widgetParameter := Some parameter |}.

Definition sampleSnapshot : value :=
  Obj [ ("updated", Num (ofZ 1600000000000));
        ("data",
         Arr [ Obj [ ("code", Arr [Str "50937"]);
                     ("place", Str "Cologne");
                     ("district", Null);
                     ("incidence", Num (Fin (71 # 2)));
                     ("previousIncidence", Null);
                     ("credit", Str "RKI");
                     ("url", Str "https://covid.9digits.de/lockdown/50937") ] ]) ].

Definition sampleDevice : Device :=
  {| Scriptable.language := "en";
     dateString := fun _ _ => "today";
     timeString := fun _ => "now";
     toLocaleString := fun _ => "n" |}.

Definition sampleWorld (store : string -> option json) (time : nat -> Z)
    (service : nat -> string -> option json) : World :=
  {| files := store; libraryDirectory := "/Library"; clock := time; ticks := 0;
     remote := service; requests := []; written := [] |}.

Definition key50937 : Match := {| ref := 0; matched := "50937" |}.
Definition key51063 : Match := {| ref := 1; matched := "51063" |}.

(** A service that knows Cologne, answers with an incidence that is no
    number, and is down for every other key. *)
Definition sampleService (k : nat) (url : string) : option json :=
  if String.eqb url "https://covid.9digits.de/lockdown/50937"
  then Some (Jobject [ ("cityName", Jstring "Cologne");
                       ("districtName", Jstring "Cologne");
                       ("lockdownIndex", Jstring "n/a");
                       ("lockdownIndexPrevious2", Jstring "12.5");
                       ("dataSource", Jstring "RKI") ])
  else None.

(** A clock that advances by 5 ms from one reading to the next. *)
Definition tickingClock (n : nat) : Z := 1600000000000 + 5 * Z.of_nat n.

(** A clock whose second reading comes 25 hours after the first. *)
Definition sleepyClock (n : nat) : Z :=
  if Nat.eqb n 0 then 1600000000000 else 1600090000000.

(** No cache file yet. *)
Definition firstRun : World := sampleWorld (fun _ => None) tickingClock sampleService.

Definition firstRunLate : World := sampleWorld (fun _ => None) sleepyClock sampleService.

(** A cache file left by an earlier run that looked up the key 50937 and
    got neither a place nor a district name. *)
Definition namelessCache : json :=
  Jobject [ ("updated", Jnumber (inject_Z 1600000000000));
            ("data",
             Jarray [ Jobject [ ("code", Jarray [Jstring "50937"]);
                                ("incidence", Jnumber (71 # 2));
                                ("previousIncidence", Jnull);
                                ("url", Jstring "https://covid.9digits.de/lockdown/50937") ] ]) ].

Definition laterRun : World :=
  sampleWorld
    (fun p => if String.eqb p "/Library/net.kopischke.covid-19.data"
              then Some namelessCache else None)
    tickingClock sampleService.


Definition english : I18n.Localization := I18n.constructor "en" strings.
Definition german : I18n.Localization := I18n.constructor "de-DE" strings.


(** ** Vocabulary of the further properties *)

(** No two values of the list are the same for [includes]. *)
Definition distinctValues (l : list value) : Prop :=
  ForallOrdPairs (fun a b => sameValueZero a b = false) l.

(** The display names that label the rows of the widget: the content of the
    first text of every stack that has one (the stack added for a record
    whose name is already shown stays empty). *)
Definition rowLabels (stacks : list Item) : list value :=
  flat_map (fun item =>
              match item with
              | Stack (Text (Shown v) _ _ :: _) => [v]
              | _ => []
              end) stacks.

(** What the loop keeps: the labels of the rows are the names collected,
    there are at most [maxLines] of them, no two are the same, and the
    credits collected are distinct and not empty. *)
Definition rowsInvariant (maxLines : nat) (rows : Rows) : Prop :=
  rowLabels (stacks rows) = locations rows /\
  (List.length (locations rows) <= maxLines)%nat /\
  distinctValues (locations rows) /\
  distinctValues (credits rows) /\
  Forall (fun credit => truthy credit = true) (credits rows).

(** The template a table of localised strings holds for a language and a
    key, if any. *)
Definition template (tables : list (string * I18n.LocalizedStrings))
    (lang key : string) : option string :=
  match lookup lang tables with
  | Some table => lookup key table
  | None => None
  end.

Fixpoint firstSome {A : Type} (l : list (option A)) : option A :=
  match l with
  | [] => None
  | Some a :: _ => Some a
  | None :: r => firstSome r
  end.

(** The text does not hold the character [c]. *)
Fixpoint lacks (c : ascii) (s : string) : bool :=
  match s with
  | EmptyString => true
  | String c' t => negb (Ascii.eqb c' c) && lacks c t
  end.

(** A text that [String.prototype.replace] inserts as it is ([$] starts its
    patterns) and in which no placeholder can start. *)
Definition plainText (s : string) : bool := lacks "%" s && lacks "$" s.

(** The matcher of the regular expression made for the placeholder [cur],
    with the text that replaces its matches. *)
Definition placeholderMatcher (cur text : string) (s : string) : option (nat * string) :=
  option_map (fun n : nat => (n, text)) (I18n.matchPlaceholder cur s).

Definition sampleTables : list (string * I18n.LocalizedStrings) :=
  [ ("en", [("title", "Password"); ("done", "OK")]);
    ("fr", [("title", "Mot de passe")]);
    ("fr-CA", [("done", "Correct")]) ].

(** The widget as it is when the lookup starts: the title only. *)
Definition titled (device : Device) (pf : Prefs) (size : string) : ListWidget :=
  add {| spacing := 2; url := widgetURL pf; items := []; refreshAfterDate := None |}
    (Text (Plain (if String.eqb size "small"
                  then I18n.string (I18n.constructor (Scriptable.language device) strings)
                         "headlineShort" None
                  else I18n.string (I18n.constructor (Scriptable.language device) strings)
                         "headlineLong" None)) None None).


(** The document written to the cache for a batch fetched at [stamp]. *)
Definition snapshotDocument (stamp : Z) (responses : list value) : json :=
  Jobject [ ("updated", Jnumber (inject_Z stamp));
            ("data", Jarray (map stringifyElement responses)) ].


Definition noRows : Rows := {| stacks := []; credits := []; locations := [] |}.

(** Three records: two of the same place, one without any name. *)
Definition sampleRecords : list value :=
  [ Obj [ ("code", Arr [Str "50937"]); ("place", Str "Cologne");
          ("incidence", Num (Fin (71 # 2))); ("previousIncidence", Num (Fin 30));
          ("credit", Str "RKI") ];
    Obj [ ("code", Arr [Str "51063"]); ("place", Str "Cologne");
          ("incidence", Num (Fin 60)); ("credit", Str "RKI") ];
    Obj [ ("code", Arr [Str "99999"]); ("incidence", Null); ("credit", Str "nobody") ] ].

(* ================================================================== *)
(** * Part VI: properties *)
(* ================================================================== *)

(** ** Comparisons of numbers *)

Lemma Qle_bool_false (a b : Q) : Qle_bool a b = false <-> ~ (a <= b)%Q.
Proof.
  rewrite <- Qle_bool_iff. destruct (Qle_bool a b); split; congruence.
Qed.

Ltac case_Qle a b :=
  let E := fresh "E" in
  destruct (Qle_bool a b) eqn:E;
  [ apply Qle_bool_iff in E | apply Qle_bool_false in E ].

Lemma inject_Z_sub (n u : Z) : (inject_Z n - inject_Z u == inject_Z (n - u))%Q.
Proof.
  unfold Qminus. rewrite <- inject_Z_opp, <- inject_Z_plus. reflexivity.
Qed.

(** [now - updated > k] on integral time stamps is the comparison of integers. *)
Lemma gt_sub_ofZ (n u k : Z) :
  gt (sub (ofZ n) (toNumber (Num (ofZ u)))) (ofZ k) = (k <? n - u)%Z.
Proof.
  unfold gt, lt, ofZ; simpl.
  case_Qle (inject_Z k) (inject_Z n - inject_Z u)%Q;
  case_Qle (inject_Z n - inject_Z u)%Q (inject_Z k);
  rewrite inject_Z_sub, <- Zle_Qle in *; simpl;
  destruct (Z.ltb_spec k (n - u)); try reflexivity; lia.
Qed.

(** ** Staleness *)

(** C4. For integral time stamps [now] and [updatedAt], with
    [age = now - updatedAt]: the update line carries no warning image (the
    data is fresh) exactly when [age <= 24h], the yellow exclamation mark
    (warning) exactly when [24h < age <= 72h], and the orange cross
    (critical) exactly when [age > 72h]. In particular an age of exactly 24h
    is fresh, one more millisecond warns; exactly 72h warns, one more
    millisecond is critical. *)
Lemma updateWarning_ofZ (n u : Z) :
  updateWarning (sub (ofZ n) (toNumber (Num (ofZ u)))) =
    if (24 * hours <? n - u)%Z
    then Some (if (72 * hours <? n - u)%Z
               then Image "xmark.circle.fill" (Some orange)
               else Image "exclamationmark.circle.fill" (Some yellow))
    else None.
Proof. unfold updateWarning. rewrite !gt_sub_ofZ. reflexivity. Qed.

Theorem staleness_buckets (now updatedAt : Z) :
  let age := (now - updatedAt)%Z in
  let warning := updateWarning (sub (ofZ now) (toNumber (Num (ofZ updatedAt)))) in
  (warning = None <-> (age <= 24 * hours)%Z) /\
  (warning = Some (Image "exclamationmark.circle.fill" (Some yellow))
     <-> (24 * hours < age <= 72 * hours)%Z) /\
  (warning = Some (Image "xmark.circle.fill" (Some orange))
     <-> (72 * hours < age)%Z) /\
  updateWarning (sub (ofZ (updatedAt + 24 * hours)) (toNumber (Num (ofZ updatedAt))))
    = None /\
  updateWarning (sub (ofZ (updatedAt + 24 * hours + 1)) (toNumber (Num (ofZ updatedAt))))
    = Some (Image "exclamationmark.circle.fill" (Some yellow)) /\
  updateWarning (sub (ofZ (updatedAt + 72 * hours)) (toNumber (Num (ofZ updatedAt))))
    = Some (Image "exclamationmark.circle.fill" (Some yellow)) /\
  updateWarning (sub (ofZ (updatedAt + 72 * hours + 1)) (toNumber (Num (ofZ updatedAt))))
    = Some (Image "xmark.circle.fill" (Some orange)).
Proof.
  cbv zeta. rewrite !updateWarning_ofZ. unfold hours.
  repeat match goal with
         | |- context [(?a <? ?b)%Z] => destruct (Z.ltb_spec a b)
         end;
    repeat split; intros; try reflexivity; try congruence; lia.
Qed.

(** ** Trend *)

(** C6. A value of zero after a previous zero gets the strong-up arrow, not
    the equal sign: when the previous value is zero, the first test
    [diff >= comparedTo] succeeds for every difference that is not negative,
    zero included. *)
Theorem trend_previous_zero :
  getTrendSymbol (Num (ofZ 0)) (Num (ofZ 0)) = "arrow.up.circle" /\
  trendSymbol (Num (ofZ 0)) (Num (ofZ 0)) = "arrow.up.circle" /\
  forall current previous : Q,
    (previous == 0)%Q -> (0 <= current - previous)%Q ->
    getTrendSymbol (Num (Fin current)) (Num (Fin previous)) = "arrow.up.circle".
Proof.
  split; [reflexivity | split; [reflexivity | ]].
  intros current previous Hp Hd. unfold getTrendSymbol, ge; simpl.
  case_Qle previous (current - previous)%Q; [reflexivity | ].
  exfalso. apply E. rewrite Hp at 1. exact Hd.
Qed.

Lemma trend_previous_zero_witness :
  ((0 # 1) == 0)%Q /\ (0 <= (7 # 2) - (0 # 1))%Q /\
  getTrendSymbol (Num (Fin (7 # 2))) (Num (Fin (0 # 1))) = "arrow.up.circle".
Proof.
  assert (A : ((0 # 1) == 0)%Q) by reflexivity.
  assert (B : (0 <= (7 # 2) - (0 # 1))%Q) by (vm_compute; discriminate).
  split; [exact A | split; [exact B | ]].
  exact (proj2 (proj2 trend_previous_zero) (7 # 2)%Q (0 # 1)%Q A B).
Defined.




(** ** Normalisation of the lookup codes *)

Lemma toCodes_ref (idx : nat) (val : value) (m : Match) :
  toCodes idx val = Some m -> ref m = idx.
Proof.
  unfold toCodes. destruct (toString val) as [s | ]; [ | discriminate].
  destruct (fiveDigits (trim s)); [ | discriminate].
  intro H. injection H as <-. reflexivity.
Qed.

Lemma found_sorted (codes : list value) (idx : nat) :
  Forall (fun m => (idx <= ref m)%nat) (filterNotEmpty (mapi toCodes idx codes)) /\
  StronglySorted refBelow (filterNotEmpty (mapi toCodes idx codes)).
Proof.
  revert idx. induction codes as [ | val codes IH]; intro idx; simpl.
  - split; constructor.
  - destruct (IH (S idx)) as [Hlow Hsorted].
    assert (Hlow' : Forall (fun m => (idx <= ref m)%nat)
                      (filterNotEmpty (mapi toCodes (S idx) codes))).
    { eapply Forall_impl; [ | exact Hlow]. simpl. intros; lia. }
    destruct (toCodes idx val) as [m | ] eqn:Hm; [ | now split].
    apply toCodes_ref in Hm. split.
    + constructor; [lia | exact Hlow'].
    + constructor; [exact Hsorted | ].
      eapply Forall_impl; [ | exact Hlow]. unfold refBelow; simpl. intros; lia.
Qed.

Lemma includesMatch_below (pre : list Match) (val : Match) :
  Forall (fun m => refBelow m val) pre -> includesMatch pre val = false.
Proof.
  unfold includesMatch, refBelow. induction 1 as [ | m pre Hm _ IH]; simpl.
  - reflexivity.
  - rewrite IH, orb_false_r. apply Nat.eqb_neq. lia.
Qed.

Lemma StronglySorted_app_head (pre : list Match) (val : Match) (l : list Match) :
  StronglySorted refBelow (pre ++ val :: l)%list -> Forall (fun m => refBelow m val) pre.
Proof.
  induction pre as [ | m pre IH]; simpl; intro H.
  - constructor.
  - inversion H as [ | ? ? Hs Hall]; subst. constructor.
    + rewrite Forall_forall in Hall. apply Hall. apply in_or_app. right. now left.
    + now apply IH.
Qed.

Lemma firstn_incl {A : Type} (n : nat) (l : list A) (x : A) :
  In x (firstn n l) -> In x l.
Proof.
  revert l. induction n as [ | n IH]; intros [ | y l]; simpl; try tauto.
  intros [H | H]; [now left | right; now apply IH].
Qed.

Lemma unique_filters_nothing (found pre l : list Match) :
  found = (pre ++ l)%list -> StronglySorted refBelow found ->
  filteri unique found (List.length pre) l = l.
Proof.
  revert pre. induction l as [ | val l IH]; intros pre Hfound Hsorted; simpl.
  - reflexivity.
  - assert (Hu : unique val (List.length pre) found = true).
    { unfold unique. destruct (Nat.eqb (List.length pre) 0); [reflexivity | ]. simpl.
      rewrite includesMatch_below; [reflexivity | ].
      assert (Hpre : Forall (fun m => refBelow m val) pre).
      { apply StronglySorted_app_head with (l := l). now rewrite <- Hfound. }
      rewrite Forall_forall in *. intros m Hm. apply Hpre.
      rewrite Hfound, firstn_app in Hm.
      replace (List.length pre - 1 - List.length pre)%nat with 0%nat in Hm by lia.
      simpl in Hm. rewrite app_nil_r in Hm. eapply firstn_incl; exact Hm. }
    rewrite Hu. f_equal.
    replace (S (List.length pre)) with (List.length (pre ++ [val])%list)
      by (rewrite length_app; simpl; lia).
    apply IH; [ | exact Hsorted]. now rewrite <- app_assoc.
Qed.

(** C5 (the code departs from the claim). The filter [unique] never removes
    an entry: every call of [match] returns a new array, and [includes]
    compares arrays by identity (besides, the slice it searches stops one
    short of the preceding entry). The sample input of the script yields its
    four codes in order, but a repeated code is kept twice. *)
Theorem normalise_keeps_duplicates :
  (forall codes, normalise codes = filterNotEmpty (mapi toCodes 0 codes)) /\
  map matched (normalise testData) = ["50937"; "51063"; "51429"; "99999"] /\
  map matched (normalise [Str "50937"; Str "50937"]) = ["50937"; "50937"] /\
  map matched
    (getLookupCodes {| runsInWidget := true; widgetFamily := "small";
                       widgetParameter := Some "50937,50937" |})
    = ["50937"; "50937"].
Proof.
  split; [ | repeat split; reflexivity].
  intro codes. unfold normalise.
  apply (unique_filters_nothing _ []); [reflexivity | apply found_sorted].
Qed.

(** ** JSON *)

Lemma stringify_Obj (l : list (string * value)) :
  stringify (Obj l) = Some (Jobject (stringifyMembers l)).
Proof.
  reflexivity.
Qed.

Lemma stringify_Arr (l : list value) :
  stringify (Arr l) = Some (Jarray (map stringifyElement l)).
Proof.
  simpl. do 2 f_equal. induction l as [ | x r IH]; simpl.
  - reflexivity.
  - rewrite IH. unfold stringifyElement. destruct (stringify x); reflexivity.
Qed.

Lemma parse_Jobject (l : list (string * json)) :
  parse (Jobject l) = Obj (parseMembers l).
Proof.
  reflexivity.
Qed.

(** ** Retrieval *)

Lemma fetchOne_answer (code : Match) (w : World) :
  fetchOne code w = (answer w (List.length (requests w)) code, asked w [lookupURL code]).
Proof.
  unfold fetchOne, bind, loadJSON, answer, asked, lift.
  destruct (remote w (List.length (requests w)) (lookupURL code)); reflexivity.
Qed.














(** ** What a run does to the world *)

Lemma ticked_0 (w : World) : ticked w 0 = w.
Proof. destruct w. unfold ticked; simpl. now rewrite Nat.add_0_r. Qed.

Lemma ticked_ticked (w : World) (n m : nat) : ticked (ticked w n) m = ticked w (n + m).
Proof. unfold ticked; simpl. now rewrite Nat.add_assoc. Qed.

Lemma readsClockOnly_ret {A : Type} (a : A) : readsClockOnly (ret a).
Proof. intro w. exists 0%nat. now rewrite ticked_0. Qed.

Lemma readsClockOnly_lift {A : Type} (r : result A) : readsClockOnly (lift r).
Proof. intro w. exists 0%nat. now rewrite ticked_0. Qed.

Lemma readsClockOnly_bind {A B : Type} (m : M A) (k : A -> M B) :
  readsClockOnly m -> (forall a, readsClockOnly (k a)) -> readsClockOnly (bind m k).
Proof.
  intros Hm Hk w. unfold bind. destruct (Hm w) as [n Hn].
  destruct (m w) as [[a | e] w1]; simpl in Hn; subst w1.
  - destruct (Hk a (ticked w n)) as [n' Hn']. exists (n + n')%nat.
    now rewrite Hn', ticked_ticked.
  - now exists n.
Qed.

Lemma readsClockOnly_Date_now : readsClockOnly Date_now.
Proof.
  intro w. exists 1%nat. unfold Date_now, ticked; simpl. now rewrite Nat.add_1_r.
Qed.

Lemma readsClockOnly_fileExists (path : string) : readsClockOnly (fm_fileExists path).
Proof. intro w. exists 0%nat. now rewrite ticked_0. Qed.

Lemma readsClockOnly_readString (path : string) : readsClockOnly (fm_readString path).
Proof. intro w. exists 0%nat. now rewrite ticked_0. Qed.

Ltac reads_clock_only :=
  repeat (cbv zeta;
          first [ apply readsClockOnly_ret
                | apply readsClockOnly_lift
                | apply readsClockOnly_Date_now
                | apply readsClockOnly_fileExists
                | apply readsClockOnly_readString
                | apply readsClockOnly_bind; [ | intro ]
                | match goal with
                  | |- readsClockOnly (if ?b then _ else _) => destruct b
                  end ]).

Lemma readsClockOnly_readCache (cache : string) : readsClockOnly (readCache cache).
Proof. unfold readCache. reads_clock_only. Qed.

Lemma readsClockOnly_present device pf l8n codes size widget locData :
  readsClockOnly (present device pf l8n codes size widget locData).
Proof. unfold present. reads_clock_only. Qed.

(** [getData] does nothing to the world but ask the service. *)
Lemma getDataLoop_world (codes : list Match) :
  forall responses w, exists urls, snd (getDataLoop codes responses w) = asked w urls.
Proof.
  induction codes as [ | code rest IH]; intros responses w; simpl.
  - exists []. unfold asked; simpl. rewrite app_nil_r. now destruct w.
  - unfold bind, tryCatch. rewrite fetchOne_answer.
    destruct (answer w (List.length (requests w)) code) as [rec | e]; simpl.
    + destruct (IH (responses ++ [rec])%list (asked w [lookupURL code])) as [urls Hu].
      exists (lookupURL code :: urls). rewrite Hu. unfold asked; simpl.
      now rewrite <- app_assoc.
    + now exists [lookupURL code].
Qed.

Lemma getData_world (codes : list Match) (w : World) :
  exists urls, snd (getData codes w) = asked w urls.
Proof. apply getDataLoop_world. Qed.

Lemma makeWidget_no_codes device config pf size (w : World) :
  getLookupCodes config = [] ->
  snd (makeWidget device config pf size w) = w /\
  exists widget,
    fst (makeWidget device config pf size w) = Ok widget /\
    items widget =
      [ Text (Plain (if String.eqb size "small"
                     then I18n.string (I18n.constructor (Scriptable.language device) strings)
                            "headlineShort" None
                     else I18n.string (I18n.constructor (Scriptable.language device) strings)
                            "headlineLong" None)) None None;
        Text (Plain (I18n.string (I18n.constructor (Scriptable.language device) strings)
                       "msgCodeError" None)) (Some orange) None ].
Proof.
  intro Hcodes. unfold makeWidget. rewrite Hcodes. simpl.
  split; [reflexivity | ]. eexists. split; reflexivity.
Qed.

Lemma makeWidget_steps device config pf size (w w1 : World) (responses : list value) :
  getLookupCodes config <> [] ->
  getData (getLookupCodes config) w = (Ok responses, w1) ->
  makeWidget device config pf size w =
    bind (updateCache (cachePath (libraryDirectory w1)) responses)
      (fun _ =>
         bind (readCache (cachePath (libraryDirectory w1)))
           (present device pf (I18n.constructor (Scriptable.language device) strings)
              (getLookupCodes config) size
              (add {| spacing := 2; url := widgetURL pf; items := [];
                      refreshAfterDate := None |}
                 (Text (Plain (if String.eqb size "small"
                               then I18n.string
                                      (I18n.constructor (Scriptable.language device) strings)
                                      "headlineShort" None
                               else I18n.string
                                      (I18n.constructor (Scriptable.language device) strings)
                                      "headlineLong" None)) None None)))) w1.
Proof.
  intros Hcodes Hdata. unfold makeWidget.
  destruct (getLookupCodes config) as [ | code rest] eqn:Hc; [congruence | ].
  cbn [List.length Nat.eqb]. cbv zeta. unfold bind at 1. rewrite Hdata.
  unfold bind at 1. reflexivity.
Qed.

Lemma readsClockOnly_after_update device pf l8n codes size widget cache :
  readsClockOnly
    (fun w => bind (readCache cache) (present device pf l8n codes size widget) w).
Proof.
  apply readsClockOnly_bind;
    [apply readsClockOnly_readCache | intro; apply readsClockOnly_present].
Qed.

(** The world at the end of a run that had keys to look up. *)
Lemma makeWidget_world device config pf size (w : World) (responses : list value) :
  getLookupCodes config <> [] ->
  fst (getData (getLookupCodes config) w) = Ok responses ->
  exists urls n,
    snd (makeWidget device config pf size w) =
      match responses with
      | [] => ticked (asked w urls) n
      | _ =>
          ticked
            (stored (ticked (asked w urls) 1) (cachePath (libraryDirectory w))
               (Jobject [("updated", Jnumber (inject_Z (clock w (ticks w))));
                         ("data", Jarray (map stringifyElement responses))]))
            n
      end.
Proof.
  intros Hcodes Hresp.
  destruct (getData (getLookupCodes config) w) as [r w1] eqn:Hdata.
  simpl in Hresp. subst r.
  destruct (getData_world (getLookupCodes config) w) as [urls Hw1].
  rewrite Hdata in Hw1. simpl in Hw1.
  rewrite (makeWidget_steps device config pf size w w1 responses Hcodes Hdata).
  exists urls. unfold bind at 1.
  destruct responses as [ | r0 rs].
  - unfold updateCache. cbn [List.length Nat.eqb negb ret].
    match goal with
    | |- context [snd (bind (readCache ?c) (present ?d ?p ?l ?cs ?s ?wd) ?x)] =>
        destruct (readsClockOnly_after_update d p l cs s wd c x) as [n Hn]
    end.
    exists n. rewrite Hn, Hw1. reflexivity.
  - unfold updateCache. cbn [List.length Nat.eqb negb].
    unfold bind at 1, Date_now, writeSnapshot.
    rewrite stringify_Obj. cbn [stringifyMembers].
    rewrite stringify_Arr. unfold ofZ. cbn [stringify]. unfold fm_writeString.
    match goal with
    | |- context [snd (bind (readCache ?c) (present ?d ?p ?l ?cs ?s ?wd) ?x)] =>
        destruct (readsClockOnly_after_update d p l cs s wd c x) as [n Hn]
    end.
    exists n. rewrite Hn, Hw1. unfold ticked, stored, asked, ofZ; simpl.
    rewrite Nat.add_1_r. reflexivity.
Qed.

(** C2. The cache file is written exactly when [getData] returned a batch
    that is not empty. When normalisation leaves no key, the run changes
    nothing in the world: no request is made, nothing is written. When the
    batch is empty, nothing is written and the files are those of before the
    run, so that reading the cache file gives the text it held before. When
    the batch is not empty, the file is written once, with the batch and the
    reading of the clock. *)
Theorem cache_written_iff_batch device config pf size (w : World) :
  let codes := getLookupCodes config in
  let cache := cachePath (libraryDirectory w) in
  let w' := snd (makeWidget device config pf size w) in
  (codes = [] -> w' = w) /\
  (codes <> [] ->
   forall responses, fst (getData codes w) = Ok responses ->
     (responses = [] ->
        written w' = written w /\ files w' = files w /\
        fst (fm_readString cache w') = fst (fm_readString cache w)) /\
     (responses <> [] ->
        exists doc,
          stringify (Obj [("updated", Num (ofZ (clock w (ticks w))));
                          ("data", Arr responses)]) = Some doc /\
          written w' = (written w ++ [(cache, doc)])%list /\
          files w' cache = Some doc)).
Proof.
  intros codes cache w'. split.
  - intro Hcodes. apply makeWidget_no_codes. exact Hcodes.
  - intros Hcodes responses Hresp.
    destruct (makeWidget_world device config pf size w responses Hcodes Hresp)
      as (urls & n & Hw').
    fold w' in Hw'. split.
    + intros ->. rewrite Hw'. unfold fm_readString. simpl. repeat split; reflexivity.
    + intro Hne. destruct responses as [ | r0 rs]; [congruence | ].
      rewrite Hw'. eexists. split.
      * rewrite stringify_Obj. cbn [stringifyMembers].
        rewrite stringify_Arr. unfold ofZ. cbn [stringify]. reflexivity.
      * simpl. subst cache. rewrite String.eqb_refl. split; reflexivity.
Qed.

Lemma cache_written_iff_batch_witness :
  snd (makeWidget sampleDevice (widgetConfig "x, 123") prefs "small" firstRun) = firstRun /\
  written (snd (makeWidget sampleDevice (widgetConfig "51063") prefs "small" firstRun))
    = [] /\
  exists doc,
    written (snd (makeWidget sampleDevice (widgetConfig "50937") prefs "small" firstRun))
      = [("/Library/net.kopischke.covid-19.data", doc)].
Proof.
  pose (w := firstRun). split; [ | split].
  - exact (proj1 (cache_written_iff_batch sampleDevice (widgetConfig "x, 123") prefs
                    "small" w) eq_refl).
  - exact (proj1 (proj1 (proj2 (cache_written_iff_batch sampleDevice
                    (widgetConfig "51063") prefs "small" w)
                    ltac:(discriminate) [] eq_refl) eq_refl)).
  - destruct (proj2 (proj2 (cache_written_iff_batch sampleDevice
                    (widgetConfig "50937") prefs "small" w)
                    ltac:(discriminate) _ eq_refl) ltac:(discriminate))
      as (doc & _ & Hw & _).
    exists doc. exact Hw.
Defined.

(** ** The cache file *)

Lemma value_ind_nested (P : value -> Prop) :
  P Undefined -> P Null -> (forall b, P (Bool b)) -> (forall n, P (Num n)) ->
  (forall s, P (Str s)) ->
  (forall l, Forall P l -> P (Arr l)) ->
  (forall l, Forall (fun kv => P (snd kv)) l -> P (Obj l)) ->
  forall v, P v.
Proof.
  intros HU HN HB HNum HS HA HO. fix IH 1. intros [ | | b | n | s | l | l].
  - exact HU.
  - exact HN.
  - apply HB.
  - apply HNum.
  - apply HS.
  - apply HA. induction l as [ | x r IHl]; constructor; [apply IH | exact IHl].
  - apply HO. induction l as [ | [k x] r IHl]; constructor; [apply IH | exact IHl].
Qed.

(** Writing a representable value as JSON and parsing it gives it back. *)
Lemma parse_stringify (v : value) :
  representable v = true -> exists doc, stringify v = Some doc /\ parse doc = v.
Proof.
  induction v as [ | | b | n | s | l IH | l IH] using value_ind_nested; intro Hr.
  - discriminate.
  - exists Jnull. now split.
  - exists (Jbool b). now split.
  - destruct n as [ | neg | q]; try discriminate. exists (Jnumber q). now split.
  - exists (Jstring s). now split.
  - rewrite stringify_Arr. eexists. split; [reflexivity | ].
    simpl. f_equal. simpl in Hr.
    induction IH as [ | x r Hx _ IHr]; simpl in *; [reflexivity | ].
    apply andb_true_iff in Hr. destruct Hr as [Hrx Hrr].
    destruct (Hx Hrx) as (d & Hd & Hp). unfold stringifyElement at 1.
    rewrite Hd, Hp. f_equal. apply IHr. exact Hrr.
  - rewrite stringify_Obj. eexists. split; [reflexivity | ].
    rewrite parse_Jobject. f_equal. simpl in Hr.
    induction IH as [ | [k x] r Hx _ IHr]; simpl in *; [reflexivity | ].
    apply andb_true_iff in Hr. destruct Hr as [Hrx Hrr].
    destruct (Hx Hrx) as (d & Hd & Hp). rewrite Hd. simpl. rewrite Hp.
    f_equal. apply IHr. exact Hrr.
Qed.

Lemma nullableString_representable (v : value) :
  nullableString v = true -> representable v = true.
Proof. destruct v; simpl; congruence. Qed.

Lemma nullableNumber_representable (v : value) :
  nullableNumber v = true -> representable v = true.
Proof. destruct v as [ | | | [ | | ] | | | ]; simpl; congruence. Qed.

Lemma codeValue_representable (v : value) :
  codeValue v = true -> representable v = true.
Proof.
  destruct v as [ | | | | | [ | [ | | | | | | ] [ | ]] | ]; simpl; congruence.
Qed.

Lemma wellFormedRecord_representable (v : value) :
  wellFormedRecord v = true -> representable v = true.
Proof.
  destruct v as [ | | | | | | fields]; simpl; try congruence.
  induction fields as [ | [k x] r IH]; simpl; [reflexivity | ].
  intro H. apply andb_true_iff in H. destruct H as [Hf Hr].
  rewrite (IH Hr), andb_true_r.
  destruct (String.eqb k "code"); [now apply codeValue_representable | ].
  destruct (String.eqb k "place" || String.eqb k "district" || String.eqb k "credit"
            || String.eqb k "url" || String.eqb k "errorMessage");
    [now apply nullableString_representable | ].
  destruct (String.eqb k "incidence" || String.eqb k "previousIncidence");
    [now apply nullableNumber_representable | discriminate].
Qed.

Lemma wellFormedSnapshot_representable (s : value) :
  wellFormedSnapshot s = true -> representable s = true.
Proof.
  destruct s as [ | | | | | | [ | [k1 [ | | | [ | | t] | | | ]] [ | [k2 data] [ | ]]]];
    simpl; try congruence.
  intro H. rewrite andb_true_r.
  apply andb_true_iff in H. destruct H as [_ H].
  destruct data as [ | | | | | records | ]; try discriminate; [reflexivity | ].
  simpl. induction records as [ | x r IH]; simpl in *; [reflexivity | ].
  apply andb_true_iff in H. destruct H as [Hx Hr].
  rewrite (wellFormedRecord_representable x Hx). simpl. apply IH. exact Hr.
Qed.

(** C3. Writing a well-formed snapshot to the cache file and then reading
    the cache gives a snapshot equal to the one written: the time stamp,
    an integral number of milliseconds, and every field of every record are
    those of the original. *)
Theorem cache_round_trip (w : World) (cache : string) (s : value) :
  wellFormedSnapshot s = true ->
  exists w',
    writeSnapshot cache s w = (Ok tt, w') /\
    fst (readCache cache w') = Ok s /\
    bindR (fst (readCache cache w')) (fun s' => get s' "updated") = get s "updated" /\
    bindR (fst (readCache cache w')) (fun s' => get s' "data") = get s "data".
Proof.
  intro Hwf. apply wellFormedSnapshot_representable in Hwf.
  destruct (parse_stringify s Hwf) as (doc & Hdoc & Hparse).
  exists (stored w cache doc). unfold writeSnapshot. rewrite Hdoc.
  split; [reflexivity | ].
  assert (Hread : fst (readCache cache (stored w cache doc)) = Ok s).
  { unfold readCache, bind, fm_fileExists, fm_readString, stored.
    cbn -[parse String.eqb]. rewrite String.eqb_refl.
    cbn -[parse String.eqb]. rewrite String.eqb_refl.
    cbn -[parse]. now rewrite Hparse. }
  rewrite Hread. repeat split; reflexivity.
Qed.

Lemma cache_round_trip_witness :
  wellFormedSnapshot sampleSnapshot = true /\
  exists w',
    writeSnapshot "/Library/net.kopischke.covid-19.data" sampleSnapshot firstRun
      = (Ok tt, w') /\
    fst (readCache "/Library/net.kopischke.covid-19.data" w') = Ok sampleSnapshot.
Proof.
  pose (w := firstRun). split; [reflexivity | ].
  destruct (cache_round_trip w "/Library/net.kopischke.covid-19.data" sampleSnapshot
              eq_refl) as (w' & Hw & Hr & _).
  exists w'. split; [exact Hw | exact Hr].
Defined.

(** ** Display names *)




(** ** The empty cache *)

(** What the widget shows for the snapshot used when there is no file. *)
Lemma present_sentinel device pf l8n codes size widget (stamp : Z) (w : World) :
  fst (present device pf l8n codes size widget
         (Obj [("updated", Num (ofZ stamp)); ("data", Null)]) w) =
  Ok (add (add (add widget
       (Stack ([ Text (Plain (getUpdateInfo device l8n (Num (ofZ stamp))
                                (String.eqb size "small"))) None None;
                 Spacer None ]
               ++ match updateWarning
                          (sub (ofZ (clock w (ticks w))) (toNumber (Num (ofZ stamp))))
                  with
                  | Some image => [image]
                  | None => []
                  end)%list))
       (Spacer (Some (spacing widget))))
       (Text (Plain (I18n.string l8n "msgNoData" None)) (Some orange) None)).
Proof. reflexivity. Qed.

(** C10 (the claim as stated fails). With no cache file and a failing
    request, the time stamp of the snapshot made up for the occasion is one
    reading of the clock and its age is computed from a later one: with a
    clock that advances by 5 ms between readings the age is 5, not 0; and
    were the second reading more than 24 hours after the first, the warning
    image would stand next to the message that there is no data. *)
Lemma empty_cache_age_is_not_zero :
  fst (readCache "/Library/net.kopischke.covid-19.data" firstRun)
    = Ok (Obj [("updated", Num (ofZ 1600000000000)); ("data", Null)]) /\
  fst (Date_now (snd (readCache "/Library/net.kopischke.covid-19.data" firstRun)))
    = Ok 1600000000005%Z /\
  sub (ofZ 1600000000005) (toNumber (Num (ofZ 1600000000000))) = Fin (inject_Z 5) /\
  numEq (Fin (inject_Z 5)) (ofZ 0) = false /\
  fst (getData (getLookupCodes (widgetConfig "51063")) firstRunLate) = Ok [] /\
  exists widget,
    fst (makeWidget sampleDevice (widgetConfig "51063") prefs "medium" firstRunLate)
      = Ok widget /\
    items widget =
      [ Text (Plain "COVID-19 Incidence") None None;
        Stack [ Text (Plain "today, now") None None; Spacer None;
                Image "exclamationmark.circle.fill" (Some yellow) ];
        Spacer (Some 2%Z);
        Text (Plain "Unable to retrieve incidence data.") (Some orange) None ].
Proof.
  repeat split; try reflexivity.
  eexists. split; vm_compute; reflexivity.
Qed.

(** C10 (amended). When there is no cache file and the run writes none: if
    normalisation left no key, the widget holds the title and the message
    about the codes, and no update line at all; if the lookup failed, the
    snapshot used carries the reading of the clock taken when the cache was
    found missing, its age is the time elapsed until the next reading of the
    clock (zero when the clock has not advanced), and whenever that time is
    at most 24 hours the update line carries no warning image next to the
    message that there is no data. *)
Theorem empty_cache_is_fresh device config pf size (w : World) :
  let codes := getLookupCodes config in
  let l8n := I18n.constructor (Scriptable.language device) strings in
  let title :=
    Text (Plain (if String.eqb size "small" then I18n.string l8n "headlineShort" None
                 else I18n.string l8n "headlineLong" None)) None None in
  let stamp := clock w (ticks w) in
  let now := clock w (S (ticks w)) in
  files w (cachePath (libraryDirectory w)) = None ->
  (codes = [] ->
   exists widget,
     fst (makeWidget device config pf size w) = Ok widget /\
     items widget =
       [ title; Text (Plain (I18n.string l8n "msgCodeError" None)) (Some orange) None ]) /\
  (codes <> [] -> fst (getData codes w) = Ok [] ->
   (now - stamp <= 24 * hours)%Z ->
   exists widget,
     fst (makeWidget device config pf size w) = Ok widget /\
     items widget =
       [ title;
         Stack [ Text (Plain (getUpdateInfo device l8n (Num (ofZ stamp))
                                (String.eqb size "small"))) None None;
                 Spacer None ];
         Spacer (Some 2%Z);
         Text (Plain (I18n.string l8n "msgNoData" None)) (Some orange) None ]).
Proof.
  intros codes l8n title stamp now Hfile. split.
  - intro Hcodes. apply makeWidget_no_codes. exact Hcodes.
  - intros Hcodes Hresp Hage.
    destruct (getData codes w) as [r w1] eqn:Hdata. simpl in Hresp. subst r.
    destruct (getData_world codes w) as [urls Hw1].
    rewrite Hdata in Hw1. simpl in Hw1.
    rewrite (makeWidget_steps device config pf size w w1 [] Hcodes Hdata).
    unfold updateCache. cbn [List.length Nat.eqb negb].
    unfold bind at 1, ret. unfold bind at 1, readCache.
    unfold bind at 1, fm_fileExists.
    assert (Hnone : files w1 (cachePath (libraryDirectory w1)) = None)
      by (rewrite Hw1; exact Hfile).
    rewrite Hnone. unfold bind at 1, Date_now, ret.
    rewrite present_sentinel. cbn [clock ticks].
    assert (Hclock : clock w1 = clock w) by (rewrite Hw1; reflexivity).
    assert (Hticks : ticks w1 = ticks w) by (rewrite Hw1; reflexivity).
    rewrite Hclock, Hticks, updateWarning_ofZ.
    fold stamp now.
    destruct (Z.ltb_spec (24 * hours) (now - stamp)); [lia | ].
    eexists. split; reflexivity.
Qed.

Lemma empty_cache_is_fresh_witness :
  files firstRun (cachePath (libraryDirectory firstRun)) = None /\
  getLookupCodes (widgetConfig "51063") <> [] /\
  fst (getData (getLookupCodes (widgetConfig "51063")) firstRun) = Ok [] /\
  (clock firstRun (S (ticks firstRun)) - clock firstRun (ticks firstRun) <= 24 * hours)%Z /\
  exists widget,
    fst (makeWidget sampleDevice (widgetConfig "51063") prefs "medium" firstRun)
      = Ok widget /\
    items widget =
      [ Text (Plain "COVID-19 Incidence") None None;
        Stack [ Text (Plain "today, now") None None; Spacer None ];
        Spacer (Some 2%Z);
        Text (Plain "Unable to retrieve incidence data.") (Some orange) None ].
Proof.
  pose (w := firstRun).
  assert (A : files w (cachePath (libraryDirectory w)) = None) by reflexivity.
  assert (B : getLookupCodes (widgetConfig "51063") <> []) by discriminate.
  assert (C : fst (getData (getLookupCodes (widgetConfig "51063")) w) = Ok [])
    by reflexivity.
  assert (D : (clock w (S (ticks w)) - clock w (ticks w) <= 24 * hours)%Z)
    by (vm_compute; discriminate).
  repeat (split; [assumption | ]).
  exact (proj2 (empty_cache_is_fresh sampleDevice (widgetConfig "51063") prefs "medium"
                  w A) B C D).
Defined.

(* ================================================================== *)
(** * Part VII: further properties of the script *)
(* ================================================================== *)

(** ** The colour of an incidence *)

(** X1. An incidence that is a number is shown in red from 50 on, in yellow
    from 35 up to, but not including, 50, and in the default colour below
    35; a value that is no number gets the default colour. *)
Theorem incidence_colour_thresholds (index : Q) :
  (getIncidenceColour (Num (Fin index)) = Some red <-> (50 <= index)%Q) /\
  (getIncidenceColour (Num (Fin index)) = Some yellow
     <-> (35 <= index)%Q /\ ~ (50 <= index)%Q) /\
  (getIncidenceColour (Num (Fin index)) = None <-> ~ (35 <= index)%Q) /\
  getIncidenceColour (Num NaN) = None.
Proof.
  unfold getIncidenceColour, ge, ofZ; simpl.
  change (inject_Z 50) with 50%Q. change (inject_Z 35) with 35%Q.
  assert (H : (50 <= index)%Q -> (35 <= index)%Q).
  { intro H. apply Qle_trans with (y := 50%Q); [ | exact H].
    apply Qle_bool_iff. reflexivity. }
  case_Qle 50%Q index; case_Qle 35%Q index;
    repeat split; intros; try reflexivity; try congruence; try tauto.
Qed.

(** ** The lookup codes *)

Lemma found_in_strings (l : list string) (idx : nat) :
  map matched (filterNotEmpty (mapi toCodes idx (map Str l)))
    = filter fiveDigits (map trim l).
Proof.
  revert idx. induction l as [ | s l IH]; intro idx; simpl; [reflexivity | ].
  unfold toCodes at 1. cbn [toString].
  destruct (fiveDigits (trim s)); simpl; now rewrite IH.
Qed.

(** X2. When the script runs in a widget, the codes it looks up are the
    parts of the widget parameter between commas, trimmed, that consist of
    exactly five decimal digits: all of them, in the order of the
    parameter, repetitions included. Without a parameter there is no code. *)
Theorem widget_parameter_codes (family : string) :
  (forall params,
     map matched
       (getLookupCodes {| runsInWidget := true; widgetFamily := family;
                          widgetParameter := Some params |})
     = filter fiveDigits (map trim (split "," params))) /\
  getLookupCodes {| runsInWidget := true; widgetFamily := family;
                    widgetParameter := None |} = [].
Proof.
  split; [ | reflexivity].
  intro params. unfold getLookupCodes, normalise. cbn [runsInWidget widgetParameter].
  rewrite (unique_filters_nothing _ []); [ | reflexivity | apply found_sorted].
  apply found_in_strings.
Qed.

Lemma found_five_digits (codes : list value) (idx : nat) :
  Forall (fun m => fiveDigits (matched m) = true)
         (filterNotEmpty (mapi toCodes idx codes)).
Proof.
  revert idx. induction codes as [ | val codes IH]; intro idx; simpl.
  - constructor.
  - destruct (toCodes idx val) as [m | ] eqn:Hm; [ | apply IH].
    constructor; [ | apply IH].
    unfold toCodes in Hm. destruct (toString val) as [s | ]; [ | discriminate].
    destruct (fiveDigits (trim s)) eqn:H5; [ | discriminate].
    injection Hm as <-. exact H5.
Qed.

Lemma filterNotEmpty_length (l : list (option Match)) :
  (List.length (filterNotEmpty l) <= List.length l)%nat.
Proof.
  induction l as [ | [m | ] l IH]; simpl; lia.
Qed.

Lemma mapi_length {A B : Type} (f : nat -> A -> B) (idx : nat) (l : list A) :
  List.length (mapi f idx l) = List.length l.
Proof.
  revert idx. induction l as [ | x l IH]; intro idx; simpl; [reflexivity | ].
  now rewrite IH.
Qed.

(** X3. Whatever the values given to it, normalisation returns only texts
    of exactly five decimal digits (so of length 5, without white space),
    and no more of them than there are values; so does [getLookupCodes] for
    every way of starting the script. *)
Theorem lookup_codes_are_five_digits :
  (forall codes : list value,
     Forall (fun m => fiveDigits (matched m) = true /\ String.length (matched m) = 5%nat)
            (normalise codes) /\
     (List.length (normalise codes) <= List.length codes)%nat) /\
  (forall config,
     Forall (fun m => fiveDigits (matched m) = true /\ String.length (matched m) = 5%nat)
            (getLookupCodes config)).
Proof.
  assert (H : forall codes : list value,
     Forall (fun m => fiveDigits (matched m) = true /\ String.length (matched m) = 5%nat)
            (normalise codes) /\
     (List.length (normalise codes) <= List.length codes)%nat).
  { intro codes. unfold normalise.
    rewrite (unique_filters_nothing _ []); [ | reflexivity | apply found_sorted].
    split.
    - eapply Forall_impl; [ | apply found_five_digits].
      intros m Hm. cbv beta in Hm. split; [exact Hm | ].
      revert Hm.
      destruct (matched m) as [ | a [ | b [ | c [ | d [ | e [ | ? ?]]]]]];
        simpl; intro Hm; try discriminate Hm. reflexivity.
    - eapply Nat.le_trans; [apply filterNotEmpty_length | ].
      now rewrite mapi_length. }
  split; [exact H | ].
  intro config. unfold getLookupCodes. apply H.
Qed.

(** ** The requests of a lookup *)






(** ** The rows of the widget *)

Lemma ForallOrdPairs_snoc {A : Type} (R : A -> A -> Prop) (l : list A) (x : A) :
  ForallOrdPairs R l -> Forall (fun a => R a x) l -> ForallOrdPairs R (l ++ [x])%list.
Proof.
  induction 1 as [ | a l Ha Hl IH]; simpl; intro Hx.
  - constructor; constructor.
  - inversion Hx as [ | ? ? Hax Hlx]; subst. constructor.
    + apply Forall_app. split; [exact Ha | constructor; [exact Hax | constructor]].
    + apply IH. exact Hlx.
Qed.

Lemma includes_false (l : list value) (v : value) :
  includes l v = false -> Forall (fun a => sameValueZero a v = false) l.
Proof.
  unfold includes. induction l as [ | a l IH]; simpl; intro H; constructor.
  - now apply orb_false_iff in H.
  - apply IH. now apply orb_false_iff in H.
Qed.

Lemma rowLabels_snoc (stacks : list Item) (item : Item) :
  rowLabels (stacks ++ [item])%list
    = (rowLabels stacks
       ++ match item with
          | Stack (Text (Shown v) _ _ :: _) => [v]
          | _ => []
          end)%list.
Proof.
  unfold rowLabels. rewrite flat_map_app. simpl. now rewrite app_nil_r.
Qed.

(** What one call of the callback does to the rows. *)
Lemma addRow_cases device pf l8n codes maxLines smallWidget rows data idx rows' :
  addRow device pf l8n codes maxLines smallWidget rows data idx = Ok rows' ->
  rows' = rows \/
  ((List.length (locations rows) < maxLines)%nat /\
   exists location,
     locationOf pf l8n codes data idx = Ok location /\
     ((includes (locations rows) location = true /\
       rowLabels (stacks rows') = rowLabels (stacks rows) /\
       locations rows' = locations rows /\
       credits rows' = credits rows) \/
      (includes (locations rows) location = false /\
       rowLabels (stacks rows') = (rowLabels (stacks rows) ++ [location])%list /\
       locations rows' = (locations rows ++ [location])%list /\
       (credits rows' = credits rows \/
        exists credit,
          truthy credit = true /\ includes (credits rows) credit = false /\
          credits rows' = (credits rows ++ [credit])%list)))).
Proof.
  unfold addRow. intro H.
  destruct (List.length (locations rows) <? maxLines)%nat eqn:Hmax;
    [ | injection H as <-; now left].
  apply Nat.ltb_lt in Hmax. right. split; [exact Hmax | ].
  destruct (locationOf pf l8n codes data idx) as [location | e]; [ | discriminate].
  exists location. split; [reflexivity | ]. cbn [bindR] in H.
  destruct (includes (locations rows) location) eqn:Hinc; cbn [negb] in H.
  - injection H as <-. left. cbn [stacks locations credits].
    rewrite rowLabels_snoc, app_nil_r. repeat split; reflexivity.
  - right. split; [reflexivity | ].
    destruct (get data "url") as [dataUrl | ]; [ | discriminate]. cbn [bindR] in H.
    destruct (get data "incidence") as [current | ]; [ | discriminate]. cbn [bindR] in H.
    destruct (isNullish current); cbn [negb] in H.
    + destruct (get data "errorMessage"); [ | discriminate]. cbn [bindR] in H.
      injection H as <-. cbn [stacks locations credits].
      rewrite rowLabels_snoc. repeat split; try reflexivity. now left.
    + destruct (if smallWidget then Ok []
                else bindR (get data "previousIncidence")
                       (fun previous =>
                          Ok [Spacer (Some 8%Z);
                              Image (trendSymbol current previous)
                                (getIncidenceColour current)]))
        as [trend | ]; [ | discriminate].
      cbn [bindR] in H.
      destruct (get data "credit") as [credit | ]; [ | discriminate]. cbn [bindR] in H.
      injection H as <-. cbn [stacks locations credits].
      rewrite rowLabels_snoc. split; [reflexivity | split; [reflexivity | ]].
      destruct (truthy credit) eqn:Ht; [ | now left].
      destruct (includes (credits rows) credit) eqn:Hc; [now left | ].
      right. exists credit. repeat split; assumption || reflexivity.
Qed.

Lemma addRow_invariant device pf l8n codes maxLines smallWidget rows data idx rows' :
  addRow device pf l8n codes maxLines smallWidget rows data idx = Ok rows' ->
  rowsInvariant maxLines rows -> rowsInvariant maxLines rows'.
Proof.
  intros H (Hlab & Hlen & Hloc & Hcred & Htruthy).
  apply addRow_cases in H.
  destruct H as [-> | (Hmax & location & _ & [(Hinc & Hl & Hlocs & Hc) | (Hinc & Hl & Hlocs & Hc)])].
  - repeat split; assumption.
  - unfold rowsInvariant. rewrite Hl, Hlocs, Hc. repeat split; assumption.
  - unfold rowsInvariant. rewrite Hl, Hlocs, Hlab.
    split; [reflexivity | split; [rewrite length_app; simpl; lia | ]].
    split; [apply ForallOrdPairs_snoc; [exact Hloc | now apply includes_false] | ].
    destruct Hc as [-> | (credit & Ht & Hnew & ->)]; [split; assumption | ].
    split.
    + apply ForallOrdPairs_snoc; [exact Hcred | now apply includes_false].
    + apply Forall_app. split; [exact Htruthy | constructor; [exact Ht | constructor]].
Qed.

Lemma forEach_invariant device pf l8n codes maxLines smallWidget (l : list value) :
  forall idx rows rows',
  forEach (addRow device pf l8n codes maxLines smallWidget) l idx rows = Ok rows' ->
  rowsInvariant maxLines rows -> rowsInvariant maxLines rows'.
Proof.
  induction l as [ | data l IH]; intros idx rows rows' H Hinv; simpl in H.
  - injection H as <-. exact Hinv.
  - destruct (addRow device pf l8n codes maxLines smallWidget rows data idx)
      as [rows1 | e] eqn:H1; [ | discriminate].
    cbn [bindR] in H. eapply IH; [exact H | ].
    eapply addRow_invariant; [exact H1 | exact Hinv].
Qed.

Lemma noRows_invariant (maxLines : nat) : rowsInvariant maxLines noRows.
Proof.
  unfold rowsInvariant, noRows, distinctValues; simpl.
  repeat split; try constructor. lia.
Qed.



(** X6. No two rows of the widget carry the same display name: a record
    whose name is already shown adds no row, so that several keys of one
    place give one row, the first. *)
Theorem row_names_are_distinct device pf l8n codes maxLines smallWidget
    (data : list value) (rows : Rows) :
  forEach (addRow device pf l8n codes maxLines smallWidget) data 0 noRows = Ok rows ->
  distinctValues (rowLabels (stacks rows)).
Proof.
  intro H.
  destruct (forEach_invariant device pf l8n codes maxLines smallWidget data 0 noRows rows
              H (noRows_invariant maxLines)) as (Hlab & _ & Hloc & _).
  now rewrite Hlab.
Qed.

Lemma row_names_are_distinct_witness :
  exists rows,
    forEach (addRow sampleDevice prefs english [key50937; key51063] 11 false)
      sampleRecords 0 noRows = Ok rows /\
    rowLabels (stacks rows) = [Str "Cologne"; Str "Code ?"] /\
    distinctValues (rowLabels (stacks rows)).
Proof.
  eassert (H : forEach (addRow sampleDevice prefs english [key50937; key51063] 11 false)
                 sampleRecords 0 noRows = Ok _) by (vm_compute; reflexivity).
  eexists. split; [exact H | ]. split; [vm_compute; reflexivity | ].
  exact (row_names_are_distinct sampleDevice prefs english [key50937; key51063] 11 false
           sampleRecords _ H).
Defined.

(** X7. The credits collected for the last line of the large widget are
    pairwise distinct, and none of them is empty or missing. *)
Theorem credits_are_distinct device pf l8n codes maxLines smallWidget
    (data : list value) (rows : Rows) :
  forEach (addRow device pf l8n codes maxLines smallWidget) data 0 noRows = Ok rows ->
  distinctValues (credits rows) /\
  Forall (fun credit => truthy credit = true) (credits rows).
Proof.
  intro H.
  destruct (forEach_invariant device pf l8n codes maxLines smallWidget data 0 noRows rows
              H (noRows_invariant maxLines)) as (_ & _ & _ & Hcred & Htruthy).
  split; assumption.
Qed.

Lemma credits_are_distinct_witness :
  exists rows,
    forEach (addRow sampleDevice prefs english [key50937; key51063] 11 false)
      sampleRecords 0 noRows = Ok rows /\
    credits rows = [Str "RKI"] /\
    distinctValues (credits rows).
Proof.
  eassert (H : forEach (addRow sampleDevice prefs english [key50937; key51063] 11 false)
                 sampleRecords 0 noRows = Ok _) by (vm_compute; reflexivity).
  eexists. split; [exact H | ]. split; [vm_compute; reflexivity | ].
  exact (proj1 (credits_are_distinct sampleDevice prefs english [key50937; key51063] 11
                  false sampleRecords _ H)).
Defined.

(** ** What a run shows *)


Lemma run_after_failed_lookup device config pf size (w : World) (doc : json) :
  getLookupCodes config <> [] ->
  fst (getData (getLookupCodes config) w) = Ok [] ->
  files w (cachePath (libraryDirectory w)) = Some doc ->
  makeWidget device config pf size w
    = present device pf (I18n.constructor (Scriptable.language device) strings)
        (getLookupCodes config) size (titled device pf size) (parse doc)
        (snd (getData (getLookupCodes config) w)).
Proof.
  intros Hcodes Hresp Hfile.
  destruct (getData (getLookupCodes config) w) as [r w1] eqn:Hdata.
  simpl in Hresp. subst r. cbn [snd].
  destruct (getData_world (getLookupCodes config) w) as [urls Hw1].
  rewrite Hdata in Hw1. simpl in Hw1.
  rewrite (makeWidget_steps device config pf size w w1 [] Hcodes Hdata).
  unfold updateCache. cbn [List.length Nat.eqb negb].
  unfold bind at 1, ret. unfold bind at 1, readCache.
  unfold bind at 1, fm_fileExists.
  assert (Hsome : files w1 (cachePath (libraryDirectory w1)) = Some doc)
    by (rewrite Hw1; exact Hfile).
  rewrite Hsome. unfold bind at 1, fm_readString, ret. rewrite Hsome.
  reflexivity.
Qed.


Lemma run_after_lookup device config pf size (w : World) (responses : list value) :
  getLookupCodes config <> [] ->
  fst (getData (getLookupCodes config) w) = Ok responses ->
  responses <> [] ->
  makeWidget device config pf size w
    = present device pf (I18n.constructor (Scriptable.language device) strings)
        (getLookupCodes config) size (titled device pf size)
        (parse (snapshotDocument (clock w (ticks w)) responses))
        (stored (ticked (snd (getData (getLookupCodes config) w)) 1)
           (cachePath (libraryDirectory w))
           (snapshotDocument (clock w (ticks w)) responses)).
Proof.
  intros Hcodes Hresp Hne.
  destruct (getData (getLookupCodes config) w) as [r w1] eqn:Hdata.
  simpl in Hresp. subst r. cbn [snd].
  destruct (getData_world (getLookupCodes config) w) as [urls Hw1].
  rewrite Hdata in Hw1. simpl in Hw1.
  rewrite (makeWidget_steps device config pf size w w1 responses Hcodes Hdata).
  destruct responses as [ | r0 rs]; [congruence | ].
  unfold updateCache. cbn [List.length Nat.eqb negb].
  unfold bind at 1. unfold bind at 1, Date_now, writeSnapshot.
  rewrite stringify_Obj. cbn [stringifyMembers].
  rewrite stringify_Arr. unfold ofZ. cbn [stringify]. unfold fm_writeString.
  unfold bind at 1, readCache. unfold bind at 1, fm_fileExists.
  cbn [files]. rewrite String.eqb_refl.
  unfold bind at 1, fm_readString, ret. cbn [files]. rewrite String.eqb_refl.
  subst w1. unfold JSON_parse, snapshotDocument, stored, ticked, asked.
  cbn [files libraryDirectory clock ticks remote requests written].
  rewrite Nat.add_1_r. reflexivity.
Qed.

(** X8. When the lookup fails and there is a cache file, the widget is
    built from the document in the file, whatever run wrote it: the run
    ends as the presentation of that document does, in the world the failed
    lookup left; and the files are afterwards as they were. *)
Theorem offline_run_shows_cache device config pf size (w : World) (doc : json) :
  getLookupCodes config <> [] ->
  fst (getData (getLookupCodes config) w) = Ok [] ->
  files w (cachePath (libraryDirectory w)) = Some doc ->
  fst (makeWidget device config pf size w)
    = fst (present device pf (I18n.constructor (Scriptable.language device) strings)
             (getLookupCodes config) size (titled device pf size) (parse doc)
             (snd (getData (getLookupCodes config) w))) /\
  files (snd (makeWidget device config pf size w)) = files w.
Proof.
  intros Hcodes Hresp Hfile.
  rewrite (run_after_failed_lookup device config pf size w doc Hcodes Hresp Hfile).
  split; [reflexivity | ].
  destruct (readsClockOnly_present device pf
              (I18n.constructor (Scriptable.language device) strings)
              (getLookupCodes config) size (titled device pf size) (parse doc)
              (snd (getData (getLookupCodes config) w))) as [n ->].
  destruct (getData_world (getLookupCodes config) w) as [urls ->]. reflexivity.
Qed.

Lemma offline_run_shows_cache_witness :
  fst (makeWidget sampleDevice (widgetConfig "51063") prefs "medium" laterRun)
    = fst (present sampleDevice prefs (I18n.constructor "en" strings)
             (getLookupCodes (widgetConfig "51063")) "medium"
             (titled sampleDevice prefs "medium") (parse namelessCache)
             (snd (getData (getLookupCodes (widgetConfig "51063")) laterRun))) /\
  files (snd (makeWidget sampleDevice (widgetConfig "51063") prefs "medium" laterRun))
    = files laterRun.
Proof.
  exact (offline_run_shows_cache sampleDevice (widgetConfig "51063") prefs "medium"
           laterRun namelessCache ltac:(discriminate) eq_refl eq_refl).
Defined.

(** X9. After a lookup that succeeded, the widget is not built from the
    records in memory but from the cache file just written: the run shows
    the parsed document, whose time stamp is the reading of the clock taken
    for the file and whose records are the fetched ones as they read back
    from JSON. *)
Theorem fresh_run_shows_cache device config pf size (w : World)
    (responses : list value) :
  getLookupCodes config <> [] ->
  fst (getData (getLookupCodes config) w) = Ok responses ->
  responses <> [] ->
  let doc := snapshotDocument (clock w (ticks w)) responses in
  fst (makeWidget device config pf size w)
    = fst (present device pf (I18n.constructor (Scriptable.language device) strings)
             (getLookupCodes config) size (titled device pf size) (parse doc)
             (stored (ticked (snd (getData (getLookupCodes config) w)) 1)
                (cachePath (libraryDirectory w)) doc)) /\
  get (parse doc) "updated" = Ok (Num (ofZ (clock w (ticks w)))) /\
  get (parse doc) "data"
    = Ok (Arr (map (fun rec => parse (stringifyElement rec)) responses)).
Proof.
  intros Hcodes Hresp Hne doc.
  rewrite (run_after_lookup device config pf size w responses Hcodes Hresp Hne).
  split; [reflexivity | ].
  unfold doc, snapshotDocument. rewrite parse_Jobject. cbn [parseMembers].
  split; [reflexivity | ].
  change (get (Obj [("updated", parse (Jnumber (inject_Z (clock w (ticks w)))));
                    ("data", parse (Jarray (map stringifyElement responses)))]) "data")
    with (Ok (parse (Jarray (map stringifyElement responses)))).
  cbn [parse]. now rewrite map_map.
Qed.

Lemma fresh_run_shows_cache_witness :
  exists rec,
    fst (getData (getLookupCodes (widgetConfig "50937")) firstRun) = Ok [rec] /\
    get rec "incidence" = Ok (Num NaN) /\
    get (parse (snapshotDocument (clock firstRun (ticks firstRun)) [rec])) "data"
      = Ok (Arr (map (fun rec => parse (stringifyElement rec)) [rec])) /\
    bindR (get (parse (stringifyElement rec)) "incidence") (fun v => Ok (isNullish v))
      = Ok true.
Proof.
  eexists. split; [reflexivity | ]. split; [reflexivity | ].
  split; [ | reflexivity].
  exact (proj2 (proj2 (fresh_run_shows_cache sampleDevice (widgetConfig "50937") prefs
                         "medium" firstRun _ ltac:(discriminate) eq_refl
                         ltac:(discriminate)))).
Defined.

(** X10. Whatever snapshot is shown, the widget continues with the update
    line: the formatted time stamp of that snapshot and, when its age at the
    next reading of the clock exceeds 24 hours, the warning image; the
    snapshot's own time stamp is the one used, also for a cache written by
    an earlier run. *)
Theorem update_line_of_snapshot device pf l8n codes size widget locData
    (w w' : World) (widget' : ListWidget) (stamp : value) :
  present device pf l8n codes size widget locData w = (Ok widget', w') ->
  get locData "updated" = Ok stamp ->
  exists rest,
    items widget' =
      (items widget
       ++ [ Stack ([ Text (Plain (getUpdateInfo device l8n stamp (String.eqb size "small")))
                       None None;
                     Spacer None ]
                   ++ match updateWarning (sub (ofZ (clock w (ticks w))) (toNumber stamp)) with
                      | Some image => [image]
                      | None => []
                      end);
            Spacer (Some (spacing widget)) ] ++ rest)%list.
Proof.
  intros H Hstamp. unfold present in H. cbv zeta in H.
  unfold bind, lift, ret, Date_now in H. cbv beta iota in H.
  rewrite Hstamp in H. cbn [clock ticks] in H.
  destruct (get locData "data") as [data | ]; [ | discriminate].
  destruct (if isNullish data then Ok true
            else bindR (lengthOf data) (fun n => Ok (looseEqNumber n (ofZ 0))))
    as [[ | ] | ]; [ | | discriminate].
  - injection H as <- _. unfold add; cbn [items]. rewrite <- !app_assoc.
    eexists. reflexivity.
  - match type of H with
    | context [match ?r with Ok _ => _ | Throw _ => _ end] => destruct r as [rows | ]
    end; [ | discriminate].
    injection H as <- _.
    destruct (String.eqb size "large" && negb (Nat.eqb (List.length (credits rows)) 0));
      unfold add; cbn [items]; rewrite <- !app_assoc; eexists; reflexivity.
Qed.

Lemma update_line_of_snapshot_witness :
  exists widget w' rest,
    present sampleDevice prefs english [key51063] "medium"
      (titled sampleDevice prefs "medium") (parse namelessCache)
      (sampleWorld (fun _ => None) (fun _ => 1600300000000%Z) sampleService)
      = (Ok widget, w') /\
    items widget =
      ([ Text (Plain "COVID-19 Incidence") None None;
         Stack [ Text (Plain "today, now") None None; Spacer None;
                 Image "xmark.circle.fill" (Some orange) ];
         Spacer (Some 2%Z) ] ++ rest)%list.
Proof.
  assert (E : exists widget,
            fst (present sampleDevice prefs english [key51063] "medium"
                   (titled sampleDevice prefs "medium") (parse namelessCache)
                   (sampleWorld (fun _ => None) (fun _ => 1600300000000%Z) sampleService))
              = Ok widget) by (eexists; vm_compute; reflexivity).
  destruct E as [widget E].
  destruct (present sampleDevice prefs english [key51063] "medium"
              (titled sampleDevice prefs "medium") (parse namelessCache)
              (sampleWorld (fun _ => None) (fun _ => 1600300000000%Z) sampleService))
    as [r w'] eqn:H.
  simpl in E. subst r.
  destruct (update_line_of_snapshot sampleDevice prefs english [key51063] "medium"
              (titled sampleDevice prefs "medium") (parse namelessCache) _ w' widget
              (Num (ofZ 1600000000000)) H eq_refl) as [rest Hrest].
  exists widget, w', rest. split; [reflexivity | exact Hrest].
Defined.

(** ** Runs that end well *)










(** ** The refresh date *)




(** ** Localised texts *)

Lemma lookup_setProperty (k k' v : string) (o : I18n.LocalizedStrings) :
  lookup k (I18n.setProperty k' v o) = if String.eqb k k' then Some v else lookup k o.
Proof.
  induction o as [ | [k0 v0] o IH]; simpl.
  - reflexivity.
  - destruct (String.eqb_spec k' k0) as [-> | Hne]; simpl.
    + destruct (String.eqb k k0); reflexivity.
    + destruct (String.eqb_spec k k0) as [-> | Hk].
      * destruct (String.eqb_spec k0 k'); [congruence | reflexivity].
      * exact IH.
Qed.

Lemma lookup_none_not_in (k : string) (o : I18n.LocalizedStrings) :
  ~ In k (map fst o) -> lookup k o = None.
Proof.
  induction o as [ | [k0 v0] o IH]; simpl; intro H; [reflexivity | ].
  destruct (String.eqb_spec k k0) as [-> | Hk]; [tauto | ]. apply IH. tauto.
Qed.

Lemma lookup_assign (k : string) (source : I18n.LocalizedStrings) :
  NoDup (map fst source) ->
  forall target,
  lookup k (I18n.assign target source)
    = match lookup k source with
      | Some v => Some v
      | None => lookup k target
      end.
Proof.
  unfold I18n.assign.
  induction source as [ | [k0 v0] source IH]; simpl; intros Hnd target.
  - reflexivity.
  - inversion Hnd as [ | ? ? Hnotin Hnd']; subst. rewrite (IH Hnd').
    rewrite lookup_setProperty.
    destruct (String.eqb_spec k k0) as [-> | Hk].
    + now rewrite (lookup_none_not_in k0 source Hnotin).
    + reflexivity.
Qed.

(** X13. The strings of a [Localization] are looked up, in this order of
    precedence, in the table of the precise language of the device (such as
    fr-CA), in that of its language group (fr), in that of en-US and in
    that of en: a key gets the template of the first of these tables that
    has it, and none if none has it. (The tables are objects: a key occurs
    once in a table.) *)
Theorem localization_precedence (lang : string)
    (tables : list (string * I18n.LocalizedStrings)) (key : string) :
  (forall l table, lookup l tables = Some table -> NoDup (map fst table)) ->
  let base := hd "" (split "-" lang) in
  lookup key (I18n.strings (I18n.constructor lang tables))
    = firstSome
        [ if negb (String.eqb lang "en-US") && negb (String.eqb lang base)
          then template tables lang key else None;
          if negb (String.eqb base "en") then template tables base key else None;
          template tables "en-US" key;
          template tables "en" key ].
Proof.
  intros Hnd base. unfold I18n.constructor, template. fold base. cbn [I18n.strings].
  destruct (negb (String.eqb lang "en-US") && negb (String.eqb lang base));
  destruct (negb (String.eqb base "en"));
  destruct (lookup lang tables) as [tl | ] eqn:Hl;
  destruct (lookup base tables) as [tb | ] eqn:Hb;
  destruct (lookup "en-US" tables) as [tu | ] eqn:Hu;
  destruct (lookup "en" tables) as [te | ] eqn:He;
  repeat match goal with
         | |- context [lookup key (I18n.assign _ ?s)] =>
             rewrite (lookup_assign key s) by (eapply Hnd; eassumption)
         end;
  cbn [firstSome lookup];
  repeat match goal with
         | |- context [match lookup key ?t with _ => _ end] => destruct (lookup key t)
         end; reflexivity.
Qed.

Lemma localization_precedence_witness :
  lookup "title" (I18n.strings (I18n.constructor "fr-CA" sampleTables))
    = Some "Mot de passe" /\
  lookup "done" (I18n.strings (I18n.constructor "fr-CA" sampleTables)) = Some "Correct" /\
  lookup "done" (I18n.strings (I18n.constructor "fr-BE" sampleTables)) = Some "OK".
Proof.
  assert (H : forall l table, lookup l sampleTables = Some table -> NoDup (map fst table)).
  { intros l table. unfold sampleTables. cbn [lookup].
    destruct (String.eqb l "en");
      [ | destruct (String.eqb l "fr"); [ | destruct (String.eqb l "fr-CA")]];
      intro E; try discriminate E; injection E as <-;
      repeat constructor; simpl; intuition discriminate. }
  split; [ | split].
  - exact (localization_precedence "fr-CA" sampleTables "title" H).
  - exact (localization_precedence "fr-CA" sampleTables "done" H).
  - exact (localization_precedence "fr-BE" sampleTables "done" H).
Defined.

Lemma widget_tables (lang : string) :
  I18n.strings (I18n.constructor lang strings)
    = if String.eqb (hd "" (split "-" lang)) "de"
      then I18n.strings german else I18n.strings english.
Proof.
  destruct (String.eqb_spec lang "en") as [-> | Hen]; [reflexivity | ].
  destruct (String.eqb_spec lang "de") as [-> | Hde]; [reflexivity | ].
  unfold I18n.constructor. cbn [I18n.strings].
  assert (Hl : lookup lang strings = None).
  { unfold strings. cbn [lookup].
    destruct (String.eqb_spec lang "en"); [contradiction | ].
    destruct (String.eqb_spec lang "de"); [contradiction | reflexivity]. }
  rewrite Hl. generalize (hd "" (split "-" lang)). intro base.
  assert (Hb : lookup base strings
               = if String.eqb base "en" then lookup "en" strings
                 else if String.eqb base "de" then lookup "de" strings
                 else None) by reflexivity.
  rewrite Hb.
  destruct (String.eqb_spec base "en") as [E | E].
  - subst base. destruct (negb (String.eqb lang "en-US") && negb (String.eqb lang "en"));
      reflexivity.
  - destruct (String.eqb_spec base "de") as [D | D].
    + subst base.
      destruct (negb (String.eqb lang "en-US") && negb (String.eqb lang "de"));
        reflexivity.
    + destruct (negb (String.eqb lang "en-US") && negb (String.eqb lang base));
        reflexivity.
Qed.

Lemma string_of_tables (a b : I18n.Localization) key reps :
  I18n.strings a = I18n.strings b -> I18n.string a key reps = I18n.string b key reps.
Proof. intro H. unfold I18n.string. now rewrite H. Qed.

Lemma widget_string (lang key : string) reps :
  I18n.string (I18n.constructor lang strings) key reps
    = if String.eqb (hd "" (split "-" lang)) "de"
      then I18n.string german key reps else I18n.string english key reps.
Proof.
  destruct (String.eqb (hd "" (split "-" lang)) "de") eqn:H;
    apply string_of_tables; rewrite widget_tables, H; reflexivity.
Qed.

(** X14. Whatever the language of the device, the texts of the widget are
    the German ones when the language group is de, the English ones
    otherwise; except the message shown when there is no data, which is the
    English one on every device: the German table has no entry under the
    key [msgNoData] that the script asks for. *)
Theorem widget_texts (lang : string) :
  let l8n := I18n.constructor lang strings in
  let base := hd "" (split "-" lang) in
  (base = "de" ->
     I18n.string l8n "headlineShort" None = "Inzidenz" /\
     I18n.string l8n "headlineLong" None = "COVID-19-Inzidenz" /\
     I18n.string l8n "msgUnknownLong" None = "unbekannt" /\
     I18n.string l8n "msgCodeError" None = "Keine Postleitzahlen in der Eingabe gefunden." /\
     I18n.string l8n "msgNoData" None = "Unable to retrieve incidence data.") /\
  (base <> "de" ->
     I18n.string l8n "headlineShort" None = "Incidence" /\
     I18n.string l8n "headlineLong" None = "COVID-19 Incidence" /\
     I18n.string l8n "msgUnknownLong" None = "unknown" /\
     I18n.string l8n "msgCodeError" None
       = "No valid German postal codes found in parameters." /\
     I18n.string l8n "msgNoData" None = "Unable to retrieve incidence data.").
Proof.
  intros l8n base. subst l8n. split; intro H; rewrite !widget_string; fold base.
  - rewrite H. repeat split; vm_compute; reflexivity.
  - destruct (String.eqb_spec base "de"); [contradiction | ].
    repeat split; vm_compute; reflexivity.
Qed.

Lemma widget_texts_witness :
  I18n.string (I18n.constructor "de-AT" strings) "msgCodeError" None
    = "Keine Postleitzahlen in der Eingabe gefunden." /\
  I18n.string (I18n.constructor "de-AT" strings) "msgNoData" None
    = "Unable to retrieve incidence data." /\
  I18n.string (I18n.constructor "nl" strings) "headlineShort" None = "Incidence".
Proof.
  split; [ | split].
  - exact (proj1 (proj2 (proj2 (proj2 (proj1 (widget_texts "de-AT") eq_refl))))).
  - exact (proj2 (proj2 (proj2 (proj2 (proj1 (widget_texts "de-AT") eq_refl))))).
  - exact (proj1 (proj2 (widget_texts "nl") ltac:(discriminate))).
Defined.

(** ** Texts with placeholders *)

Lemma append_empty (s : string) : s ++ "" = s.
Proof. induction s as [ | c s IH]; simpl; [reflexivity | now rewrite IH]. Qed.

Lemma lacks_append (c : ascii) (a b : string) :
  lacks c (a ++ b) = lacks c a && lacks c b.
Proof.
  induction a as [ | c' a IH]; simpl; [reflexivity | ].
  now rewrite IH, andb_assoc.
Qed.

(** A text without per cent sign goes through a replacement unchanged. *)
Lemma replaceAll_plain (matcher : string -> option (nat * string)) (s r : string) :
  (forall c t, Ascii.eqb c "%" = false -> matcher (String c t) = None) ->
  lacks "%" s = true ->
  I18n.replaceAll matcher 0 (s ++ r) = s ++ I18n.replaceAll matcher 0 r.
Proof.
  intros Hm. induction s as [ | c s IH]; simpl; intro H; [reflexivity | ].
  apply andb_true_iff in H. destruct H as [Hc Hs]. apply negb_true_iff in Hc.
  rewrite (Hm c _ Hc), (IH Hs). reflexivity.
Qed.

Lemma matchDefault_plain (c : ascii) (t : string) :
  Ascii.eqb c "%" = false -> I18n.matchDefault (String c t) = None.
Proof.
  intro H. destruct c as [[ | ] [ | ] [ | ] [ | ] [ | ] [ | ] [ | ] [ | ]];
    try reflexivity. discriminate H.
Qed.

Lemma placeholderMatcher_plain (cur text : string) (c : ascii) (t : string) :
  Ascii.eqb c "%" = false -> placeholderMatcher cur text (String c t) = None.
Proof.
  intro H. unfold placeholderMatcher, I18n.matchPlaceholder. cbn [append prefix].
  destruct (ascii_dec "%" c) as [<- | Hne]; [discriminate H | reflexivity].
Qed.

Lemma defaults_plain (s : string) :
  lacks "%" s = true -> I18n.replaceAll I18n.matchDefault 0 s = s.
Proof.
  intro H. rewrite <- (append_empty s) at 1.
  rewrite (replaceAll_plain _ _ "" matchDefault_plain H).
  cbn [I18n.replaceAll]. apply append_empty.
Qed.

Lemma date_step (en : bool) (d : string) :
  I18n.replaceAll (placeholderMatcher "date" d) 0
    (if en then "%{date:date unknown}, %{time:time unknown}"
     else "%{date:Datum unbekannt}, %{time:Zeit unbekannt}")
  = d ++ (if en then ", %{time:time unknown}" else ", %{time:Zeit unbekannt}").
Proof. destruct en; reflexivity. Qed.

Lemma time_step (en : bool) (t : string) :
  I18n.replaceAll (placeholderMatcher "time" t) 0
    (if en then ", %{time:time unknown}" else ", %{time:Zeit unbekannt}")
  = ", " ++ (t ++ "").
Proof. destruct en; reflexivity. Qed.

Lemma updated_text (en : bool) (d t : string) :
  lacks "%" d = true -> lacks "%" t = true ->
  I18n.string (if en then english else german) "updated"
    (Some [("date", Some d); ("time", Some t)])
  = d ++ ", " ++ t.
Proof.
  intros Hd Ht. unfold I18n.string.
  replace (lookup "updated" (I18n.strings (if en then english else german)))
    with (Some (if en then "%{date:date unknown}, %{time:time unknown}"
                else "%{date:Datum unbekannt}, %{time:Zeit unbekannt}"))
    by (destruct en; reflexivity).
  replace (String.eqb (if en then "%{date:date unknown}, %{time:time unknown}"
                       else "%{date:Datum unbekannt}, %{time:Zeit unbekannt}") "")
    with false by (destruct en; reflexivity).
  replace (includesStr "%{" (if en then "%{date:date unknown}, %{time:time unknown}"
                             else "%{date:Datum unbekannt}, %{time:Zeit unbekannt}"))
    with true by (destruct en; reflexivity).
  cbn [fold_left fst snd].
  change (fun s : string =>
            option_map (fun n : nat => (n, d)) (I18n.matchPlaceholder "date" s))
    with (placeholderMatcher "date" d).
  change (fun s : string =>
            option_map (fun n : nat => (n, t)) (I18n.matchPlaceholder "time" s))
    with (placeholderMatcher "time" t).
  rewrite date_step.
  rewrite (replaceAll_plain _ d _ (placeholderMatcher_plain "time" t) Hd).
  rewrite time_step, append_empty.
  apply defaults_plain. rewrite !lacks_append, Hd, Ht. reflexivity.
Qed.

(** X15. Whatever the language of the device, the text of the update line
    is the formatted date, a comma and a blank, and the formatted time,
    provided the two formatted texts hold neither a per cent sign nor a
    dollar sign (the characters that matter to the replacement of
    placeholders). *)
Theorem update_info_format (device : Device) (timestamp : value) (shortForm : bool) :
  plainText (dateString device shortForm timestamp) = true ->
  plainText (timeString device timestamp) = true ->
  getUpdateInfo device (I18n.constructor (Scriptable.language device) strings)
    timestamp shortForm
  = dateString device shortForm timestamp ++ ", " ++ timeString device timestamp.
Proof.
  unfold plainText. intros Hd Ht.
  apply andb_true_iff in Hd. destruct Hd as [Hd _].
  apply andb_true_iff in Ht. destruct Ht as [Ht _].
  unfold getUpdateInfo. rewrite widget_string.
  destruct (String.eqb (hd "" (split "-" (Scriptable.language device))) "de").
  - exact (updated_text false _ _ Hd Ht).
  - exact (updated_text true _ _ Hd Ht).
Qed.

Lemma update_info_format_witness :
  getUpdateInfo sampleDevice (I18n.constructor "en" strings) (Num (ofZ 1600000000000)) true
    = "today, now".
Proof.
  exact (update_info_format sampleDevice (Num (ofZ 1600000000000)) true eq_refl eq_refl).
Defined.

Lemma isDigit_plain (c : ascii) :
  isDigit c = true -> Ascii.eqb c "%" = false /\ Ascii.eqb c "$" = false.
Proof.
  intro H. destruct c as [[ | ] [ | ] [ | ] [ | ] [ | ] [ | ] [ | ] [ | ]];
    try discriminate H; split; reflexivity.
Qed.

Lemma fiveDigits_plain (s : string) : fiveDigits s = true -> plainText s = true.
Proof.
  destruct s as [ | a [ | b [ | c [ | d [ | e [ | ? ?]]]]]];
    unfold fiveDigits; try discriminate.
  intro H. do 4 (apply andb_true_iff in H; destruct H as [H ?]).
  unfold plainText; cbn [lacks].
  repeat match goal with
         | D : isDigit ?x = true |- _ =>
             destruct (isDigit_plain x D) as [-> ->]; clear D
         end.
  reflexivity.
Qed.

Lemma code_step (en : bool) (c : string) :
  I18n.replaceAll (placeholderMatcher "code" c) 0
    (if en then "Code %{code:?}" else "PLZ %{code}")
  = (if en then "Code " else "PLZ ") ++ (c ++ "").
Proof. destruct en; reflexivity. Qed.

Lemma code_text (en : bool) (c : string) :
  lacks "%" c = true ->
  I18n.string (if en then english else german) "msgCode" (Some [("code", Some c)])
  = (if en then "Code " else "PLZ ") ++ c.
Proof.
  intro Hc. unfold I18n.string.
  replace (lookup "msgCode" (I18n.strings (if en then english else german)))
    with (Some (if en then "Code %{code:?}" else "PLZ %{code}"))
    by (destruct en; reflexivity).
  replace (String.eqb (if en then "Code %{code:?}" else "PLZ %{code}") "")
    with false by (destruct en; reflexivity).
  replace (includesStr "%{" (if en then "Code %{code:?}" else "PLZ %{code}"))
    with true by (destruct en; reflexivity).
  cbn [fold_left fst snd].
  change (fun s : string =>
            option_map (fun n : nat => (n, c)) (I18n.matchPlaceholder "code" s))
    with (placeholderMatcher "code" c).
  rewrite code_step, append_empty.
  apply defaults_plain. rewrite lacks_append, Hc. destruct en; reflexivity.
Qed.

(** X16. The placeholder shown for a record without name reads [Code]
    (on a device of the language group de: [PLZ]), a blank and the key,
    for every key that normalisation lets through. Where the run has no key
    at the position of the record, the placeholder is [Code ?]; on a device
    of the language group de, whose template has no default, it is the
    template itself, [PLZ %{code}]. *)
Theorem placeholder_text (lang : string) :
  let l8n := I18n.constructor lang strings in
  let word := if String.eqb (hd "" (split "-" lang)) "de" then "PLZ " else "Code " in
  (forall idx val code, toCodes idx val = Some code ->
     I18n.string l8n "msgCode" (Some [("code", Some (matched code))])
       = word ++ matched code) /\
  I18n.string l8n "msgCode" (Some [("code", None)])
    = if String.eqb (hd "" (split "-" lang)) "de" then "PLZ %{code}" else "Code ?".
Proof.
  intros l8n word. subst l8n word. split.
  - intros idx val code Hcode.
    assert (Hplain : lacks "%" (matched code) = true).
    { unfold toCodes in Hcode. destruct (toString val) as [s | ]; [ | discriminate].
      destruct (fiveDigits (trim s)) eqn:H5; [ | discriminate].
      injection Hcode as <-. cbn [matched].
      apply fiveDigits_plain in H5. unfold plainText in H5.
      now apply andb_true_iff in H5. }
    rewrite widget_string.
    destruct (String.eqb (hd "" (split "-" lang)) "de").
    + exact (code_text false _ Hplain).
    + exact (code_text true _ Hplain).
  - rewrite widget_string.
    destruct (String.eqb (hd "" (split "-" lang)) "de"); reflexivity.
Qed.

Lemma placeholder_text_witness :
  I18n.string (I18n.constructor "de-CH" strings) "msgCode" (Some [("code", Some "51063")])
    = "PLZ 51063".
Proof.
  exact (proj1 (placeholder_text "de-CH") 0%nat (Str " 51063 ")
           {| ref := 0; matched := "51063" |} eq_refl).
Defined.

(** ** Records without a value *)

(** X17. A record fetched from an answer whose current metric does not
    parse as a number is shown, once it has gone through the cache file,
    with the localised text for an unknown value in orange, linked label
    first, without trend image; and its credit is not collected. *)
Theorem unparseable_incidence_is_shown_unknown device pf l8n codes maxLines
    (smallWidget : bool) (rows : Rows) (code : Match) (resp rec x location : value)
    (idx : nat) :
  incidenceInfo code resp = Ok rec ->
  get resp "lockdownIndex" = Ok x ->
  parseFloat x = NaN ->
  (List.length (locations rows) < maxLines)%nat ->
  locationOf pf l8n codes (parse (stringifyElement rec)) idx = Ok location ->
  includes (locations rows) location = false ->
  addRow device pf l8n codes maxLines smallWidget rows (parse (stringifyElement rec)) idx
    = Ok {| stacks :=
              (stacks rows
               ++ [Stack [ Text (Shown location) None (Some (Str (lookupURL code)));
                           Spacer None;
                           Text (Plain (I18n.string l8n
                                          (if smallWidget then "msgUnknownShort"
                                           else "msgUnknownLong") None))
                             (Some orange) None ]])%list;
            credits := credits rows;
            locations := (locations rows ++ [location])%list |}.
Proof.
  intros Hrec Hx Hnan Hmax Hloc Hnew.
  unfold addRow. apply Nat.ltb_lt in Hmax. rewrite Hmax, Hloc. cbn [bindR].
  rewrite Hnew. cbn [negb].
  unfold incidenceInfo in Hrec. rewrite Hx in Hrec.
  destruct (get resp "cityName") as [cityName | ]; [ | discriminate].
  destruct (get resp "districtName") as [districtName | ]; [ | discriminate].
  cbn [bindR] in Hrec.
  destruct (get resp "lockdownIndexPrevious2") as [previous | ]; [ | discriminate].
  destruct (get resp "dataSource") as [dataSource | ]; [ | discriminate].
  cbn [bindR] in Hrec. injection Hrec as <-. rewrite Hnan.
  unfold stringifyElement. rewrite stringify_Obj, parse_Jobject.
  cbn [stringifyMembers].
  destruct (stringify cityName), (stringify districtName), (stringify dataSource),
    (stringify (Num (parseFloat previous))); reflexivity.
Qed.

Lemma unparseable_incidence_is_shown_unknown_witness :
  exists rec,
    incidenceInfo key50937 (Obj [("cityName", Str "Cologne"); ("lockdownIndex", Str "n/a")])
      = Ok rec /\
    addRow sampleDevice prefs english [key50937] 3 false noRows
      (parse (stringifyElement rec)) 0
    = Ok {| stacks :=
              [Stack [ Text (Shown (Str "Cologne")) None
                         (Some (Str "https://covid.9digits.de/lockdown/50937"));
                       Spacer None;
                       Text (Plain "unknown") (Some orange) None ]];
            credits := [];
            locations := [Str "Cologne"] |}.
Proof.
  eexists. split; [reflexivity | ].
  exact (unparseable_incidence_is_shown_unknown sampleDevice prefs english [key50937] 3
           false noRows key50937
           (Obj [("cityName", Str "Cologne"); ("lockdownIndex", Str "n/a")])
           _ (Str "n/a") (Str "Cologne") 0 eq_refl eq_refl eq_refl
           ltac:(vm_compute; lia) eq_refl eq_refl).
Defined.
